(** * Habitat Designer: geometry calculator and rule evaluator

    A shallow embedding of [src/src/HabitatDesigner.jsx]: the two geometry
    functions [computeVolumeMeters3] and [computeFloorArea], the rule table
    [rules] and the rule engine [evaluateZones].

    JavaScript numbers are IEEE 754 binary64 values.  The engine is written
    once over a small interface of the number operations it uses
    ([JsNum], [JsFormat]) and instantiated twice:
    - at Rocq's primitive [float] (binary64), with [Math.max], [ToBoolean],
      [Number.prototype.toFixed] and [Number::toString] following ECMA-262;
      this instance runs;
    - at the real numbers [R], the reading in which the formulas of the
      specification are meant.

    Beside the engine the file embeds the functions that edit the zone
    list ([addZone], [updateZone], [removeZone]), the state of the
    component with its handlers, the shares of the canvas, and the second
    component of the repository ([src/unnamed/part_000]) with its zone
    list and its "Per Crew Area" text. *)

From Stdlib Require Import ZArith QArith Qround Qabs Floats Reals Lra.
From stdpp Require Import base option list gmap strings pretty.

Local Open Scope Z_scope.
#[local] Set Warnings "-inexact-float".

(** ** Numbers as the engine uses them *)

(** The arithmetic the source performs on numbers. *)
Class JsNum (N : Type) := {
  lit : Q -> N;                 (* a numeric literal of the source text *)
  Math_PI : N;                  (* Math.PI *)
  add : N -> N -> N;            (* a + b, both operands numbers *)
  mul : N -> N -> N;            (* a * b *)
  div : N -> N -> N;            (* a / b *)
  Math_max : N -> N -> N;       (* Math.max(a, b) *)
  lt : N -> N -> bool;          (* a < b *)
  ToBoolean : N -> bool;        (* truthiness, as in if(x) and x || y *)
}.

(** Conversions of a number to text. *)
Class JsFormat (N : Type) := {
  toFixed1 : N -> string;       (* x.toFixed(1) *)
  ToString : N -> string;       (* `${x}` *)
}.

Declare Scope js_scope.
Delimit Scope js_scope with js.
Notation "a + b" := (add a b) : js_scope.
Notation "a * b" := (mul a b) : js_scope.
Notation "a / b" := (div a b) : js_scope.
Notation "a <? b" := (lt a b) : js_scope.
(* a > b evaluates to the same boolean as b < a *)
Notation "a >? b" := (lt b a) : js_scope.
(* a || b on a number a *)
Notation "a '||' b" := (if ToBoolean a then a else b) (at level 50, left associativity) : js_scope.

(** ** binary64 *)

Module Float64.

Definition Qlt_bool (a b : Q) : bool := negb (Qle_bool b a).

(** The exact value [m * 2^e] of a finite nonzero double of mantissa [m]
    and exponent [e], as [Prim2SF] decomposes it. *)
Definition exact (m : positive) (e : Z) : Q := (inject_Z (Z.pos m) * 2 ^ e)%Q.

Definition decimal (n : Z) : string := pretty (Z.to_N n).

(** *** Number::toString (ECMA-262, 6.1.6.1.20) *)

(** [v] is read back as the double [m * 2^e] (round to nearest, ties to
    even): it lies between the midpoints to the two neighbours, the
    midpoints themselves included when [m] is even. *)
Definition rounds_to (m : positive) (e : Z) (v : Q) : bool :=
  let x := exact m e in
  let up := (2 ^ (e - 1))%Q in
  let down := if (m =? 2 ^ 52)%positive && (-1074 <? e)
              then (2 ^ (e - 2))%Q else (2 ^ (e - 1))%Q in
  if Z.even (Z.pos m)
  then Qle_bool (x - down) v && Qle_bool v (x + up)
  else Qlt_bool (x - down) v && Qlt_bool v (x + up).

(** The decimal exponent of [x > 0]: the [n] with [10^(n-1) <= x < 10^n].
    The search starts from an estimate by the binary exponent, first
    downwards until [10^(n-1) <= x], then upwards until [x < 10^n]. *)
Fixpoint exp_down (fuel : nat) (n : Z) (x : Q) : Z :=
  match fuel with
  | O => n
  | S fuel' => if Qle_bool (10 ^ (n - 1)) x then n else exp_down fuel' (n - 1) x
  end.

Fixpoint exp_up (fuel : nat) (n : Z) (x : Q) : Z :=
  match fuel with
  | O => n
  | S fuel' => if Qlt_bool x (10 ^ n) then n else exp_up fuel' (n + 1) x
  end.

Definition dec_exp (m : positive) (e : Z) : Z :=
  let x := exact m e in
  let estimate := (Z.log2 (Z.pos m) + e) * 30103 / 100000 in
  exp_up 640 (exp_down 640 estimate x) x.

(** The pairs [(s, n)] with [k] digits, [10^(k-1) <= s < 10^k], whose
    value [s * 10^(n-k)] is read back as the double; [n0] is the decimal
    exponent of the double. *)
Definition candidates (m : positive) (e : Z) (n0 k : Z) : list (Z * Z) :=
  let x := exact m e in
  flat_map (fun n =>
    let b := Qfloor (x / 10 ^ (n - k)) in
    filter (fun sn : Z * Z => bool_decide
              (10 ^ (k - 1) <= sn.1 < 10 ^ k
               /\ rounds_to m e (inject_Z sn.1 * 10 ^ (n - k)) = true))
           [(b, n); (b + 1, n)])
    [n0; n0 + 1].

Definition distance (x : Q) (k : Z) (sn : Z * Z) : Q :=
  Qabs (inject_Z sn.1 * 10 ^ (sn.2 - k) - x).

(** Closest to [x] first; of two at the same distance, the even [s]. *)
Definition closer (x : Q) (k : Z) (c1 c2 : Z * Z) : Z * Z :=
  if Qlt_bool (distance x k c2) (distance x k c1) then c2
  else if Qlt_bool (distance x k c1) (distance x k c2) then c1
  else if Z.even c1.1 then c1 else c2.

(** The fewest digits [k], from [k] upwards, that are read back as the
    double; 17 digits always are. *)
Fixpoint shortest (fuel : nat) (m : positive) (e : Z) (n0 k : Z) : Z * Z * Z :=
  match fuel with
  | O => (0, 0, k)
  | S fuel' =>
      match candidates m e n0 k with
      | [] => shortest fuel' m e n0 (k + 1)
      | c :: cs => (foldr (closer (exact m e) k) c cs, k)
      end
  end.

Definition zeros (n : Z) : string := String.concat "" (replicate (Z.to_nat n) "0").

Definition take_s (n : Z) (s : string) : string := String.substring 0 (Z.to_nat n) s.
Definition drop_s (n : Z) (s : string) : string :=
  String.substring (Z.to_nat n) (String.length s - Z.to_nat n) s.

Definition layout (s n k : Z) : string :=
  let ds := decimal s in
  if bool_decide (k <= n <= 21) then ds +:+ zeros (n - k)
  else if bool_decide (0 < n <= 21) then take_s n ds +:+ "." +:+ drop_s n ds
  else if bool_decide (-6 < n <= 0) then "0." +:+ zeros (- n) +:+ ds
  else
    let ex := (if bool_decide (n - 1 < 0) then "-" else "+") +:+ decimal (Z.abs (n - 1)) in
    if bool_decide (k = 1) then ds +:+ "e" +:+ ex
    else take_s 1 ds +:+ "." +:+ drop_s 1 ds +:+ "e" +:+ ex.

Definition Number_toString (x : float) : string :=
  match Prim2SF x with
  | S754_nan => "NaN"
  | S754_zero _ => "0"
  | S754_infinity s => (if s then "-" else "") +:+ "Infinity"
  | S754_finite s m e =>
      let '(sd, n, k) := shortest 17 m e (dec_exp m e) 1 in
      (if s then "-" else "") +:+ layout sd n k
  end.

(** *** Number.prototype.toFixed(1) (ECMA-262, 21.1.3.3) *)

(** The integer [n] for which [n / 10 - x] is as close to zero as
    possible, the larger one if there are two; [x >= 0]. *)
Definition tenths (x : Q) : Z := Qfloor (x * 10 + (1 # 2))%Q.

Definition Number_toFixed1 (x : float) : string :=
  match Prim2SF x with
  | S754_nan => "NaN"
  | S754_zero _ => "0.0"
  | S754_infinity s => (if s then "-" else "") +:+ "Infinity"
  | S754_finite s m e =>
      if Qle_bool (10 ^ 21) (exact m e) then Number_toString x
      else
        let n := tenths (exact m e) in
        (if s then "-" else "") +:+ decimal (n / 10) +:+ "." +:+ decimal (n mod 10)
  end.

(** *** Math.max, ToBoolean, literals *)

Definition Math_max (a b : float) : float :=
  if is_nan a || is_nan b then nan
  else if (a <? b)%float then b
  else if (b <? a)%float then a
  else if get_sign a then b else a.   (* equal: +0 wins over -0 *)

Definition ToBoolean (x : float) : bool := negb (is_nan x || is_zero x).

Definition of_Z (z : Z) : float :=
  match z with
  | Z0 => zero
  | Zpos _ => of_uint63 (Uint63.of_Z z)
  | Zneg p => (- of_uint63 (Uint63.of_Z (Zpos p)))%float
  end.

(** A decimal literal denotes the double nearest to it; for the short
    literals of the source that is the correctly rounded quotient. *)
Definition literal (q : Q) : float := (of_Z (Qnum q) / of_Z (Z.pos (Qden q)))%float.

(** The doubles that are real numbers [>= 0], the areas a zone may have
    by the data model: [+0] and the positive finite doubles. *)
Definition is_nonneg_real (x : float) : bool :=
  match Prim2SF x with
  | S754_zero false | S754_finite false _ _ => true
  | _ => false
  end.

End Float64.

#[export] Instance float_JsNum : JsNum float := {|
  lit := Float64.literal;
  Math_PI := 0x1.921fb54442d18p+1%float;
  add := PrimFloat.add;
  mul := PrimFloat.mul;
  div := PrimFloat.div;
  Math_max := Float64.Math_max;
  lt := PrimFloat.ltb;
  ToBoolean := Float64.ToBoolean;
|}.

#[export] Instance float_JsFormat : JsFormat float := {|
  toFixed1 := Float64.Number_toFixed1;
  ToString := Float64.Number_toString;
|}.

(** ** The real numbers: the same operations, exact *)

#[export] Instance R_JsNum : JsNum R := {|
  lit := Q2R;
  Math_PI := PI;
  add := Rplus;
  mul := Rmult;
  div := Rdiv;
  Math_max := Rmax;
  lt := fun a b => if Rlt_dec a b then true else false;
  ToBoolean := fun x => if Req_dec_T x 0 then false else true;
|}.

Arguments lit {N _} q%_Q.

(** ** Data of the component *)

(** [dimensions]: [{ w, h, type }]. *)
Record Dimensions (N : Type) := { w : N; h : N; type : string }.
Arguments w {N} _.
Arguments h {N} _.
Arguments type {N} _.

(** A zone: [{ id, name, area_m2 }]. *)
Record Zone (N : Type) := { id : Z; name : string; area_m2 : N }.
Arguments id {N} _.
Arguments name {N} _.
Arguments area_m2 {N} _.

(** A value of [rules]: an object carrying some of the three fields; an
    absent field reads [undefined]. *)
Record Rule (N : Type) := {
  min_per_crew : option N;
  fixed_min : option N;
  min_per_crew_per_30days : option N;
}.
Arguments min_per_crew {N} _.
Arguments fixed_min {N} _.
Arguments min_per_crew_per_30days {N} _.

(** An entry of the report: [{ ok, msg }]. *)
Record CheckResult := { ok : bool; msg : string }.

(** How a call ends.  [EngineError] lists the error kinds that the
    specification names; the source has no [throw] statement. *)
Inductive EngineError := InvalidShapeKind | InvalidDimension | InvalidMissionContext.

Inductive Completion (A : Type) :=
  | Returns (a : A)
  | Throws (e : EngineError).
Arguments Returns {A} a.
Arguments Throws {A} e.

(** The three requirement forms of the specification's RuleSpec. *)
Inductive RuleSpec (N : Type) :=
  | perCrew (rate : N)
  | perCrewPer30Days (rate : N)
  | fixedMinimum (value : N).
Arguments perCrew {N} rate.
Arguments perCrewPer30Days {N} rate.
Arguments fixedMinimum {N} value.

(** ** The engine *)

Section Engine.
Context {N : Type} `{JsNum N} `{JsFormat N}.
Local Open Scope js_scope.

Definition presets : list (string * Dimensions N) :=
  [ ("Cylinder", {| w := lit 6; h := lit 8; type := "cylinder" |});
    ("Box", {| w := lit 4; h := lit 6; type := "box" |});
    ("Sphere", {| w := lit 5; h := lit 5; type := "sphere" |});
    ("Inflatable", {| w := lit 8; h := lit 4; type := "ellipsoid" |}) ].

Definition computeVolumeMeters3 (d : Dimensions N) : N :=
  let w := d.(w) in
  let h := d.(h) in
  if decide (d.(type) = "cylinder") then
    let r := w / lit 2 in
    Math_PI * r * r * h
  else if decide (d.(type) = "sphere") then
    let r := w / lit 2 in
    (lit 4 / lit 3) * Math_PI * r * r * r
  else if decide (d.(type) = "ellipsoid") then
    let a := w / lit 2 in
    let b := w / lit 2 in
    let c := h / lit 2 in
    (lit 4 / lit 3) * Math_PI * a * b * c
  else if decide (d.(type) = "box") then
    w * h * lit 2.5
  else lit 0.

Definition computeFloorArea (d : Dimensions N) : N :=
  if decide (d.(type) = "cylinder") then
    Math_PI * (d.(w) / lit 2) * (d.(w) / lit 2)
  else if decide (d.(type) = "sphere") then
    Math_PI * (d.(w) / lit 2) * (d.(w) / lit 2)
  else if decide (d.(type) = "ellipsoid") then
    Math_PI * (d.(w) / lit 2) * (d.(h) / lit 2)
  else if decide (d.(type) = "box") then
    d.(w) * d.(h)
  else lit 0.

(** [rules], in the order [Object.entries] lists it: the order in which
    the keys are written. *)
Definition rules : list (string * Rule N) :=
  [ ("Sleep", {| min_per_crew := Some (lit 4); fixed_min := None;
                 min_per_crew_per_30days := None |});
    ("Recreation", {| min_per_crew := Some (lit 2); fixed_min := None;
                      min_per_crew_per_30days := None |});
    ("Exercise", {| min_per_crew := Some (lit 3); fixed_min := None;
                    min_per_crew_per_30days := None |});
    ("Hygiene", {| min_per_crew := None; fixed_min := Some (lit 3);
                   min_per_crew_per_30days := None |});
    ("ECLSS", {| min_per_crew := None; fixed_min := Some (lit 4);
                 min_per_crew_per_30days := None |});
    ("Stowage", {| min_per_crew := None; fixed_min := None;
                   min_per_crew_per_30days := Some (lit 0.5) |}) ].

(** [if(v.f) required = e]: the assignment happens when the field is
    present and truthy. *)
Definition assign_if (field : option N) (e : N -> N) (required : N) : N :=
  match field with
  | Some x => if ToBoolean x then e x else required
  | None => required
  end.

(** The state [evaluateZones] closes over. *)
Variables (crew missionDays floorArea : N).

(** Lines 93 to 96: [required] after the three conditional assignments. *)
Definition required_area (v : Rule N) : N :=
  let required := lit 0 in
  let required := assign_if v.(min_per_crew) (fun r => r * crew) required in
  let required :=
    assign_if v.(min_per_crew_per_30days)
      (fun r => r * crew * (Math_max (lit 1) missionDays / lit 30)) required in
  let required := assign_if v.(fixed_min) (fun x => x) required in
  required.

(** [zonesArr.forEach(z => zoneMap[z.name] = z)].  The map is only read
    at the keys of [rules], none of which is a property that an object
    inherits, so the own properties decide every lookup (also after a zone
    named [__proto__], whose assignment gives [zoneMap] the zone as
    prototype: a zone has the properties [id], [name] and [area_m2]
    only). *)
Definition build_zoneMap (zonesArr : list (Zone N)) : gmap string (Zone N) :=
  fold_left (fun zoneMap z => <[ z.(name) := z ]> zoneMap) zonesArr ∅.

(** The body of the callback given to [Object.entries(rules).forEach];
    [report.push] appends at the end. *)
Definition check_rule (zoneMap : gmap string (Zone N))
    (report : list CheckResult) (kv : string * Rule N) : list CheckResult :=
  let '(k, v) := kv in
  match zoneMap !! k with
  | None => report ++ [ {| ok := false; msg := "Missing zone: " +:+ k |} ]
  | Some z =>
      let required := required_area v in
      if z.(area_m2) <? required then
        report ++ [ {| ok := false;
                       msg := k +:+ " TOO SMALL: " +:+ ToString z.(area_m2)
                              +:+ " m^2 < required " +:+ toFixed1 required +:+ " m^2" |} ]
      else
        report ++ [ {| ok := true;
                       msg := k +:+ " OK: " +:+ ToString z.(area_m2)
                              +:+ " m^2 >= required " +:+ toFixed1 required +:+ " m^2" |} ]
  end.

Definition total_area (zonesArr : list (Zone N)) : N :=
  fold_left (fun a b => a + (b.(area_m2) || lit 0)) zonesArr (lit 0).

Definition evaluateZones (zonesArr : list (Zone N)) : list CheckResult :=
  let report := [] in
  let zoneMap := build_zoneMap zonesArr in
  let report := fold_left (check_rule zoneMap) rules report in
  let totalZonesArea := total_area zonesArr in
  if totalZonesArea >? floorArea then
    report ++ [ {| ok := false;
                   msg := "TOTAL AREA EXCEEDS USABLE FLOOR AREA: "
                          +:+ toFixed1 totalZonesArea +:+ " m^2 > floor "
                          +:+ toFixed1 floorArea +:+ " m^2" |} ]
  else
    report ++ [ {| ok := true;
                   msg := "Total zones " +:+ toFixed1 totalZonesArea
                          +:+ " m^2 within floor area " +:+ toFixed1 floorArea
                          +:+ " m^2" |} ].

End Engine.

(** The component's [evaluation]: [evaluateZones(zones)] with
    [floorArea = computeFloorArea(dimensions)]. *)
Definition evaluation {N : Type} `{JsNum N} `{JsFormat N}
    (dimensions : Dimensions N) (crew missionDays : N) (zones : list (Zone N))
  : list CheckResult :=
  evaluateZones crew missionDays (computeFloorArea dimensions) zones.

(** A call of a function of the component.  No body has a [throw], and the
    operations applied to numbers, strings and arrays complete on every
    value of these types: the call completes with the function's value. *)
Definition call {A B : Type} (f : A -> B) (x : A) : Completion B := Returns (f x).

(** The initial [zones] of the component. *)
Definition initial_zones {N : Type} `{JsNum N} : list (Zone N) :=
  [ {| id := 1; name := "Sleep"; area_m2 := lit 6 |};
    {| id := 2; name := "Hab"; area_m2 := lit 8 |};
    {| id := 3; name := "ECLSS"; area_m2 := lit 4 |} ].

(** ** Reading the report *)

Section Report.
Context {N : Type} `{JsNum N} `{JsFormat N}.
Variables (crew missionDays floorArea : N).
Local Open Scope js_scope.

(** The entry that one run of the callback pushes for the rule [(k, v)]. *)
Definition rule_result (zoneMap : gmap string (Zone N)) (kv : string * Rule N)
  : CheckResult :=
  match zoneMap !! kv.1 with
  | None => {| ok := false; msg := "Missing zone: " +:+ kv.1 |}
  | Some z =>
      let required := required_area crew missionDays kv.2 in
      if z.(area_m2) <? required then
        {| ok := false;
           msg := kv.1 +:+ " TOO SMALL: " +:+ ToString z.(area_m2)
                  +:+ " m^2 < required " +:+ toFixed1 required +:+ " m^2" |}
      else
        {| ok := true;
           msg := kv.1 +:+ " OK: " +:+ ToString z.(area_m2)
                  +:+ " m^2 >= required " +:+ toFixed1 required +:+ " m^2" |}
  end.

(** The entry pushed by the floor area check. *)
Definition aggregate_result (zonesArr : list (Zone N)) : CheckResult :=
  let totalZonesArea := total_area zonesArr in
  if totalZonesArea >? floorArea then
    {| ok := false;
       msg := "TOTAL AREA EXCEEDS USABLE FLOOR AREA: "
              +:+ toFixed1 totalZonesArea +:+ " m^2 > floor "
              +:+ toFixed1 floorArea +:+ " m^2" |}
  else
    {| ok := true;
       msg := "Total zones " +:+ toFixed1 totalZonesArea
              +:+ " m^2 within floor area " +:+ toFixed1 floorArea +:+ " m^2" |}.

(** The requirement form a rule object stands for: the one field it has. *)
Definition rule_form (v : Rule N) : option (RuleSpec N) :=
  match v.(min_per_crew), v.(min_per_crew_per_30days), v.(fixed_min) with
  | Some rate, None, None => Some (perCrew rate)
  | None, Some rate, None => Some (perCrewPer30Days rate)
  | None, None, Some value => Some (fixedMinimum value)
  | _, _, _ => None
  end.

(** The required area of a form: the rate per crew member, the rate per
    crew member for each period of 30 days (at least one day counted), or
    the fixed value. *)
Definition required_by_form (f : RuleSpec N) : N :=
  match f with
  | perCrew rate => rate * crew
  | perCrewPer30Days rate => rate * crew * (Math_max (lit 1) missionDays / lit 30)
  | fixedMinimum value => value
  end.

(** The sum of the areas of all zones, from 0, first zone first. *)
Definition sum_areas (zonesArr : list (Zone N)) : N :=
  fold_left (fun a z => a + z.(area_m2)) zonesArr (lit 0).

End Report.

(** The shape descriptor of the specification: [kind] is [type],
    [primaryDimension] is [w] and [secondaryDimension] is [h]. *)
Definition shape {N : Type} (kind : string) (primaryDimension secondaryDimension : N)
  : Dimensions N :=
  {| w := primaryDimension; h := secondaryDimension; type := kind |}.

(** ** Inputs used in the examples *)

Definition torus : Dimensions float :=
  {| w := 6%float; h := 8%float; type := "torus" |}.

Definition cylinder_6_8 : Dimensions float :=
  {| w := 6%float; h := 8%float; type := "cylinder" |}.

Definition sleep_and_eclss : list (Zone float) :=
  [ {| id := 1; name := "Sleep"; area_m2 := 6%float |};
    {| id := 2; name := "ECLSS"; area_m2 := 4%float |} ].

Definition stowage_quarter : list (Zone float) :=
  [ {| id := 1; name := "Stowage"; area_m2 := 6.25%float |} ].

Definition two_sleeps : list (Zone float) :=
  [ {| id := 1; name := "Sleep"; area_m2 := 20%float |};
    {| id := 2; name := "Hab"; area_m2 := 8%float |};
    {| id := 3; name := "Sleep"; area_m2 := 6%float |} ].

Definition thirty_square_metres : list (Zone float) :=
  [ {| id := 1; name := "Sleep"; area_m2 := 16%float |};
    {| id := 2; name := "Hab"; area_m2 := 10%float |};
    {| id := 3; name := "ECLSS"; area_m2 := 4%float |} ].

(** ** Editing the zones *)

(** The [patch] given to [updateZone]: an object with some of the fields
    of a zone.  The inputs of the zone list give [{name: ...}] and
    [{area_m2: ...}]. *)
Record Patch (N : Type) := {
  patch_id : option Z;
  patch_name : option string;
  patch_area_m2 : option N;
}.
Arguments patch_id {N} _.
Arguments patch_name {N} _.
Arguments patch_area_m2 {N} _.

Section Editing.
Context {N : Type} `{JsNum N}.
Local Open Scope js_scope.

(** [{...x, ...patch}]: the fields of the patch replace those of [x]. *)
Definition spread (x : Zone N) (patch : Patch N) : Zone N :=
  {| id := default x.(id) patch.(patch_id);
     name := default x.(name) patch.(patch_name);
     area_m2 := default x.(area_m2) patch.(patch_area_m2) |}.

(** [addZone]; [now] is the value of [Date.now()]. *)
Definition addZone (now : Z) (z : list (Zone N)) : list (Zone N) :=
  z ++ [ {| id := now; name := "New"; area_m2 := lit 2 |} ].

Definition updateZone (zid : Z) (patch : Patch N) (z : list (Zone N)) : list (Zone N) :=
  map (fun x => if decide (x.(id) = zid) then spread x patch else x) z.

Definition removeZone (zid : Z) (z : list (Zone N)) : list (Zone N) :=
  filter (fun x => x.(id) <> zid) z.

(** The canvas: [total] of line 218, the share [pct] of a zone and the
    [flexBasis] of its box. *)
Definition canvas_total (zones : list (Zone N)) : N :=
  fold_left (fun a b => a + b.(area_m2)) zones (lit 0).

Definition canvas_pct (zones : list (Zone N)) (z : Zone N) : N :=
  Math_max (lit 0.02) (z.(area_m2) / Math_max (lit 1) (canvas_total zones)).

End Editing.

(** ** The state of the component and its handlers *)

Module Component.

Record State (N : Type) := {
  shapeName : string;
  dimensions : Dimensions N;
  crew : N;
  missionDays : N;
  zones : list (Zone N);
}.
Arguments shapeName {N} _.
Arguments dimensions {N} _.
Arguments crew {N} _.
Arguments missionDays {N} _.
Arguments zones {N} _.

(** What the user does.  A number is the value of [Number(e.target.value)]
    of the input; [now] is [Date.now()] at the click. *)
Inductive Event (N : Type) :=
  | SelectPreset (p : string)
  | InputW (x : N)
  | InputH (x : N)
  | InputCrew (x : N)
  | InputMissionDays (x : N)
  | ClickAddZone (now : Z)
  | InputZoneName (zid : Z) (s : string)
  | InputZoneArea (zid : Z) (x : N)
  | ClickRemove (zid : Z).
Arguments SelectPreset {N} p.
Arguments InputW {N} x.
Arguments InputH {N} x.
Arguments InputCrew {N} x.
Arguments InputMissionDays {N} x.
Arguments ClickAddZone {N} now.
Arguments InputZoneName {N} zid s.
Arguments InputZoneArea {N} zid x.
Arguments ClickRemove {N} zid.

Section Handlers.
Context {N : Type} `{JsNum N} `{JsFormat N}.

(** [presets[p]]. *)
Definition preset (p : string) : option (Dimensions N) :=
  match list_find (fun kv : string * Dimensions N => kv.1 = p) presets with
  | Some (_, kv) => Some kv.2
  | None => None
  end.

(** The values of the [useState] calls. *)
Definition initial : State N :=
  {| shapeName := "Cylinder";
     dimensions := {| w := lit 6; h := lit 8; type := "cylinder" |};
     crew := lit 4;
     missionDays := lit 180;
     zones := initial_zones |}.

(** The state after a handler has run.  The select offers the keys of
    [presets]; for another name [presets[p]] is [undefined] and the next
    render fails on [d.w]: no state. *)
Definition handle (st : State N) (e : Event N) : option (State N) :=
  match e with
  | SelectPreset p =>
      match preset p with
      | Some d =>
          Some {| shapeName := p; dimensions := d; crew := st.(crew);
                  missionDays := st.(missionDays); zones := st.(zones) |}
      | None => None
      end
  | InputW x =>
      Some {| shapeName := st.(shapeName);
              dimensions := {| w := x; h := st.(dimensions).(h);
                               type := st.(dimensions).(type) |};
              crew := st.(crew); missionDays := st.(missionDays);
              zones := st.(zones) |}
  | InputH x =>
      Some {| shapeName := st.(shapeName);
              dimensions := {| w := st.(dimensions).(w); h := x;
                               type := st.(dimensions).(type) |};
              crew := st.(crew); missionDays := st.(missionDays);
              zones := st.(zones) |}
  | InputCrew x =>
      Some {| shapeName := st.(shapeName); dimensions := st.(dimensions);
              crew := x; missionDays := st.(missionDays); zones := st.(zones) |}
  | InputMissionDays x =>
      Some {| shapeName := st.(shapeName); dimensions := st.(dimensions);
              crew := st.(crew); missionDays := x; zones := st.(zones) |}
  | ClickAddZone now =>
      Some {| shapeName := st.(shapeName); dimensions := st.(dimensions);
              crew := st.(crew); missionDays := st.(missionDays);
              zones := addZone now st.(zones) |}
  | InputZoneName zid s =>
      Some {| shapeName := st.(shapeName); dimensions := st.(dimensions);
              crew := st.(crew); missionDays := st.(missionDays);
              zones := updateZone zid
                         {| patch_id := None; patch_name := Some s;
                            patch_area_m2 := None |} st.(zones) |}
  | InputZoneArea zid x =>
      Some {| shapeName := st.(shapeName); dimensions := st.(dimensions);
              crew := st.(crew); missionDays := st.(missionDays);
              zones := updateZone zid
                         {| patch_id := None; patch_name := None;
                            patch_area_m2 := Some x |} st.(zones) |}
  | ClickRemove zid =>
      Some {| shapeName := st.(shapeName); dimensions := st.(dimensions);
              crew := st.(crew); missionDays := st.(missionDays);
              zones := removeZone zid st.(zones) |}
  end.

(** The state after a sequence of events, first event first. *)
Fixpoint run (st : State N) (events : list (Event N)) : option (State N) :=
  match events with
  | [] => Some st
  | e :: events' =>
      match handle st e with
      | Some st' => run st' events'
      | None => None
      end
  end.

(** What a render computes from the state. *)
Definition volume (st : State N) : N := computeVolumeMeters3 st.(dimensions).
Definition floorArea (st : State N) : N := computeFloorArea st.(dimensions).
Definition evaluation (st : State N) : list CheckResult :=
  evaluateZones st.(crew) st.(missionDays) (floorArea st) st.(zones).

End Handlers.

End Component.

(** The kind of [dimensions] is the kind of the preset that [shapeName]
    names. *)
Definition kind_of_preset {N : Type} `{JsNum N} (st : Component.State N) : Prop :=
  exists d, Component.preset st.(Component.shapeName) = Some d
            /\ st.(Component.dimensions).(type) = d.(type).

(** ** The second component (src/unnamed/part_000) *)

(** [Number.prototype.toFixed(f)] (ECMA-262, 21.1.3.3) for any number [f]
    of digits: the digits of the integer [n] nearest to [x * 10^f], the
    larger of two, padded with zeros to [f + 1] digits, the point before
    the last [f]. *)
Definition fixed_layout (f : nat) (n : Z) : string :=
  let m := Float64.decimal n in
  if decide (f = 0%nat) then m
  else
    let m := Float64.zeros (Z.of_nat (f + 1 - String.length m)) +:+ m in
    let k := String.length m in
    String.substring 0 (k - f) m +:+ "." +:+ String.substring (k - f) f m.

Definition Number_toFixed (f : nat) (x : float) : string :=
  match Prim2SF x with
  | S754_nan => "NaN"
  | S754_zero _ => fixed_layout f 0
  | S754_infinity s => (if s then "-" else "") +:+ "Infinity"
  | S754_finite s m e =>
      if Qle_bool (10 ^ 21) (Float64.exact m e) then Float64.Number_toString x
      else
        (if s then "-" else "")
        +:+ fixed_layout f (Qfloor (Float64.exact m e * 10 ^ Z.of_nat f + (1 # 2))%Q)
  end.

Module Chart.

(** A zone of this component: [{ id, name, area }]. *)
Record Zone (N : Type) := { id : Z; name : string; area : N }.
Arguments id {N} _.
Arguments name {N} _.
Arguments area {N} _.

(** The state.  The handlers of the zone inputs write into the zone
    objects in place, so the objects are kept apart from the array:
    [objects] holds the zone objects made so far, an object being known by
    its position, and [zones] is the array of the state, a list of such
    positions. *)
Record State (N : Type) := {
  shape : string;
  width : N;
  height : N;
  crew : N;
  days : N;
  objects : list (Zone N);
  zones : list nat;
}.
Arguments shape {N} _.
Arguments width {N} _.
Arguments height {N} _.
Arguments crew {N} _.
Arguments days {N} _.
Arguments objects {N} _.
Arguments zones {N} _.

(** What the user does; a number is the value of [+e.target.value], [i]
    the index of the list item. *)
Inductive Event (N : Type) :=
  | SelectShape (s : string)
  | InputWidth (x : N)
  | InputHeight (x : N)
  | InputCrew (x : N)
  | InputDays (x : N)
  | ClickAddZone
  | InputName (i : nat) (s : string)
  | InputArea (i : nat) (x : N).
Arguments SelectShape {N} s.
Arguments InputWidth {N} x.
Arguments InputHeight {N} x.
Arguments InputCrew {N} x.
Arguments InputDays {N} x.
Arguments ClickAddZone {N}.
Arguments InputName {N} i s.
Arguments InputArea {N} i x.

Section Handlers.
Context {N : Type} `{JsNum N}.
Local Open Scope js_scope.

Definition initial : State N :=
  {| shape := "cylinder"; width := lit 6; height := lit 8; crew := lit 4;
     days := lit 180; objects := []; zones := [] |}.

(** [const updated = [...zones]; updated[i].f = v; setZones(updated)]: the
    copy holds the same objects, the write goes to the object at index
    [i].  With no object there the assignment fails: no state. *)
Definition write_zone (st : State N) (i : nat) (f : Zone N -> Zone N)
  : option (State N) :=
  match st.(zones) !! i with
  | Some a =>
      match st.(objects) !! a with
      | Some o =>
          Some {| shape := st.(shape); width := st.(width); height := st.(height);
                  crew := st.(crew); days := st.(days);
                  objects := <[ a := f o ]> st.(objects);
                  zones := st.(zones) |}
      | None => None
      end
  | None => None
  end.

Definition handle (st : State N) (e : Event N) : option (State N) :=
  match e with
  | SelectShape s =>
      Some {| shape := s; width := st.(width); height := st.(height);
              crew := st.(crew); days := st.(days);
              objects := st.(objects); zones := st.(zones) |}
  | InputWidth x =>
      Some {| shape := st.(shape); width := x; height := st.(height);
              crew := st.(crew); days := st.(days);
              objects := st.(objects); zones := st.(zones) |}
  | InputHeight x =>
      Some {| shape := st.(shape); width := st.(width); height := x;
              crew := st.(crew); days := st.(days);
              objects := st.(objects); zones := st.(zones) |}
  | InputCrew x =>
      Some {| shape := st.(shape); width := st.(width); height := st.(height);
              crew := x; days := st.(days);
              objects := st.(objects); zones := st.(zones) |}
  | InputDays x =>
      Some {| shape := st.(shape); width := st.(width); height := st.(height);
              crew := st.(crew); days := x;
              objects := st.(objects); zones := st.(zones) |}
  | ClickAddZone =>
      (* addZone: a new object, and a new array with it at the end *)
      let n := length st.(zones) in
      Some {| shape := st.(shape); width := st.(width); height := st.(height);
              crew := st.(crew); days := st.(days);
              objects := st.(objects)
                         ++ [ {| id := Z.of_nat n + 1;
                                 name := "Zone " +:+ pretty (n + 1)%nat;
                                 area := lit 5 |} ];
              zones := st.(zones) ++ [ length st.(objects) ] |}
  | InputName i s =>
      write_zone st i (fun o => {| id := o.(id); name := s; area := o.(area) |})
  | InputArea i x =>
      write_zone st i (fun o => {| id := o.(id); name := o.(name); area := x |})
  end.

Fixpoint run (st : State N) (events : list (Event N)) : option (State N) :=
  match events with
  | [] => Some st
  | e :: events' =>
      match handle st e with
      | Some st' => run st' events'
      | None => None
      end
  end.

(** The zones as a render reads them: the objects of the array. *)
Definition view (st : State N) : list (Zone N) :=
  omap (fun a => st.(objects) !! a) st.(zones).

Definition totalArea (st : State N) : N :=
  fold_left (fun sum z => sum + z.(area)) (view st) (lit 0).

End Handlers.

(** [(totalArea / crew).toFixed(2)], the text after "Per Crew Area:". *)
Definition perCrewArea (st : State float) : string :=
  Number_toFixed 2 (totalArea st / st.(crew))%float.

End Chart.

(** The array of the state holds every object made so far, once and in
    the order of making, and the object at position [a] has the id
    [a + 1]. *)
Definition array_in_order {N : Type} (st : Chart.State N) : Prop :=
  st.(Chart.zones) = seq 0 (length st.(Chart.objects))
  /\ forall a o, st.(Chart.objects) !! a = Some o -> o.(Chart.id) = Z.of_nat a + 1.

(** The state of the second component after two clicks on Add Zone. *)
Definition two_zones_added : Chart.State float :=
  {| Chart.shape := "cylinder"; Chart.width := lit 6; Chart.height := lit 8;
     Chart.crew := lit 4; Chart.days := lit 180;
     Chart.objects :=
       [ {| Chart.id := 1; Chart.name := "Zone 1"; Chart.area := lit 5 |};
         {| Chart.id := 2; Chart.name := "Zone 2"; Chart.area := lit 5 |} ];
     Chart.zones := [0; 1]%nat |}.

(** ** The engine statement by statement *)

(** [evaluateZones] makes two objects and writes into them: the array
    [report] ([push]) and the object [zoneMap] (property assignment).
    Here the objects live in a heap that outlasts the call, the heap a
    second call starts from; what the function only reads (the zones, the
    rule table, the numbers it closes over) is given by value. *)
Module Imp.

Inductive Cell (N : Type) :=
  | ArrayCell (items : list CheckResult)
  | ObjectCell (props : gmap string (Zone N)).
Arguments ArrayCell {N} items.
Arguments ObjectCell {N} props.

(** An object is known by its position in the heap; a new object goes to
    the end. *)
Definition Heap (N : Type) : Type := list (Cell N).

(** A computation on the heap; [None]: an operation on an object of the
    wrong kind. *)
Definition M (N A : Type) : Type := Heap N -> option (A * Heap N).

Definition ret {N A : Type} (a : A) : M N A := fun h => Some (a, h).

Definition bind {N A B : Type} (c : M N A) (k : A -> M N B) : M N B :=
  fun h => match c h with
           | Some (a, h') => k a h'
           | None => None
           end.

Notation "'let*' x ':=' c 'in' k" := (bind c (fun x => k))
  (at level 10, x name, c at level 100, k at level 200) : js_scope.

(** [[]] *)
Definition new_array {N : Type} : M N nat :=
  fun h => Some (length h, h ++ [ArrayCell []]).

(** [{}] *)
Definition new_object {N : Type} : M N nat :=
  fun h => Some (length h, h ++ [ObjectCell ∅]).

(** [a.push(x)] *)
Definition push {N : Type} (a : nat) (x : CheckResult) : M N unit :=
  fun h => match h !! a with
           | Some (ArrayCell items) => Some (tt, <[ a := ArrayCell (items ++ [x]) ]> h)
           | _ => None
           end.

(** [o[k] = z] *)
Definition set_prop {N : Type} (o : nat) (k : string) (z : Zone N) : M N unit :=
  fun h => match h !! o with
           | Some (ObjectCell props) => Some (tt, <[ o := ObjectCell (<[ k := z ]> props) ]> h)
           | _ => None
           end.

(** [o[k]] *)
Definition get_prop {N : Type} (o : nat) (k : string) : M N (option (Zone N)) :=
  fun h => match h !! o with
           | Some (ObjectCell props) => Some (props !! k, h)
           | _ => None
           end.

(** [l.forEach(f)] *)
Fixpoint forEach {N A : Type} (l : list A) (f : A -> M N unit) : M N unit :=
  match l with
  | [] => ret tt
  | x :: l' => bind (f x) (fun _ => forEach l' f)
  end.

Section Statements.
Context {N : Type} `{JsNum N} `{JsFormat N}.
Variables (crew missionDays floorArea : N).
Local Open Scope js_scope.

(** The geometry functions make no object and write into none. *)
Definition computeVolumeMeters3 (d : Dimensions N) : M N N :=
  ret (computeVolumeMeters3 d).

Definition computeFloorArea (d : Dimensions N) : M N N :=
  ret (computeFloorArea d).

(** The body of [evaluateZones], lines 82 to 113; the value is the array
    [report]. *)
Definition evaluateZones (zonesArr : list (Zone N)) : M N nat :=
  let* report := new_array in
  let* zoneMap := new_object in
  let* _ := forEach zonesArr (fun z => set_prop zoneMap z.(name) z) in
  let* _ :=
    forEach rules (fun kv =>
      let k := kv.1 in
      let v := kv.2 in
      let* z := get_prop zoneMap k in
      match z with
      | None => push report {| ok := false; msg := "Missing zone: " +:+ k |}
      | Some z =>
          let required := required_area crew missionDays v in
          if z.(area_m2) <? required then
            push report
              {| ok := false;
                 msg := k +:+ " TOO SMALL: " +:+ ToString z.(area_m2)
                        +:+ " m^2 < required " +:+ toFixed1 required +:+ " m^2" |}
          else
            push report
              {| ok := true;
                 msg := k +:+ " OK: " +:+ ToString z.(area_m2)
                        +:+ " m^2 >= required " +:+ toFixed1 required +:+ " m^2" |}
      end) in
  let totalZonesArea := total_area zonesArr in
  let* _ :=
    (if totalZonesArea >? floorArea then
       push report
         {| ok := false;
            msg := "TOTAL AREA EXCEEDS USABLE FLOOR AREA: "
                   +:+ toFixed1 totalZonesArea +:+ " m^2 > floor "
                   +:+ toFixed1 floorArea +:+ " m^2" |}
     else
       push report
         {| ok := true;
            msg := "Total zones " +:+ toFixed1 totalZonesArea
                   +:+ " m^2 within floor area " +:+ toFixed1 floorArea
                   +:+ " m^2" |}) in
  ret report.

End Statements.

End Imp.

(** * Properties *)

Section Structure.
Context {N : Type} `{JsNum N} `{JsFormat N}.
Variables (crew missionDays floorArea : N).

Lemma check_rule_push (zoneMap : gmap string (Zone N)) report kv :
  check_rule crew missionDays zoneMap report kv
  = report ++ [rule_result crew missionDays zoneMap kv].
Proof.
  destruct kv as [k v]. unfold check_rule, rule_result. simpl.
  destruct (zoneMap !! k) as [z|]; [|reflexivity].
  destruct (lt _ _); reflexivity.
Qed.

Lemma fold_check_rule (zoneMap : gmap string (Zone N)) rs report :
  fold_left (check_rule crew missionDays zoneMap) rs report
  = report ++ map (rule_result crew missionDays zoneMap) rs.
Proof.
  revert report. induction rs as [|kv rs IH]; intros report; simpl.
  - now rewrite app_nil_r.
  - rewrite IH, check_rule_push, <- app_assoc. reflexivity.
Qed.

(** The report is the results of the rules, in the order of the table,
    followed by the result of the floor area check. *)
Lemma evaluateZones_report zonesArr :
  evaluateZones crew missionDays floorArea zonesArr
  = map (rule_result crew missionDays (build_zoneMap zonesArr)) rules
    ++ [aggregate_result floorArea zonesArr].
Proof.
  unfold evaluateZones, aggregate_result.
  rewrite fold_check_rule. simpl app at 1.
  destruct (lt _ _); reflexivity.
Qed.

Lemma evaluateZones_length zonesArr :
  length (evaluateZones crew missionDays floorArea zonesArr) = 7%nat.
Proof. rewrite evaluateZones_report. reflexivity. Qed.

(** What a fold of property assignments leaves at key [k]: the last zone
    of that name, or what the object had before. *)
Lemma fold_assign_lookup (zonesArr : list (Zone N)) (m : gmap string (Zone N)) k :
  fold_left (fun zoneMap z => <[ z.(name) := z ]> zoneMap) zonesArr m !! k
  = match last (filter (fun z => z.(name) = k) zonesArr) with
    | Some z => Some z
    | None => m !! k
    end.
Proof.
  revert m. induction zonesArr as [|z zs IH]; intros m; simpl; [reflexivity|].
  rewrite IH, filter_cons.
  destruct (decide (name z = k)) as [Heq|Hne].
  - rewrite last_cons. destruct (last (filter _ zs)); [reflexivity|].
    rewrite <- Heq. apply lookup_insert_eq.
  - destruct (last (filter _ zs)); [reflexivity|].
    now apply lookup_insert_ne.
Qed.

Lemma build_zoneMap_lookup (zonesArr : list (Zone N)) k :
  build_zoneMap zonesArr !! k = last (filter (fun z => z.(name) = k) zonesArr).
Proof.
  unfold build_zoneMap. rewrite fold_assign_lookup.
  destruct (last _); [reflexivity | apply lookup_empty].
Qed.

Lemma build_zoneMap_missing (zonesArr : list (Zone N)) k :
  Forall (fun z => z.(name) <> k) zonesArr -> build_zoneMap zonesArr !! k = None.
Proof.
  intros Hall. rewrite build_zoneMap_lookup.
  assert (filter (fun z => z.(name) = k) zonesArr = []) as ->; [|reflexivity].
  induction Hall as [|z zs Hz _ IH]; [reflexivity|].
  rewrite filter_cons. destruct (decide (name z = k)); [contradiction | exact IH].
Qed.

End Structure.

(** ** Facts of binary64 arithmetic *)

Section Binary64.
Local Open Scope float_scope.

Lemma SFltb_irrefl x : SFltb x x = false.
Proof.
  unfold SFltb, SFcompare.
  destruct x as [[]|[]| |[] m e]; try reflexivity;
    rewrite Z.compare_refl, Pos.compare_cont_refl; reflexivity.
Qed.

(** [x < x] is false for every double, NaN included. *)
Lemma ltb_irrefl (x : float) : (x <? x) = false.
Proof. rewrite FloatAxioms.ltb_spec. apply SFltb_irrefl. Qed.

(** A double at most 0 is a number below 1. *)
Lemma leb_zero_below_one (x : float) :
  (x <=? 0) = true -> is_nan x = false /\ (1 <? x) = false /\ (x <? 1) = true.
Proof.
  unfold is_nan.
  rewrite FloatAxioms.leb_spec, FloatAxioms.eqb_spec, !FloatAxioms.ltb_spec.
  change (Prim2SF 0) with (S754_zero false).
  change (Prim2SF 1) with (S754_finite false 4503599627370496 (-52)).
  destruct (Prim2SF x) as [[]|[]| |[] m e]; try discriminate; intros _;
    unfold SFeqb, SFltb, SFcompare;
    rewrite ?Z.compare_refl, ?Pos.compare_cont_refl; auto.
Qed.

(** [Math.max(1, missionDays)] is 1 when [missionDays <= 0]. *)
Lemma Math_max_one_clamps (x : float) :
  (x <=? 0) = true -> Float64.Math_max 1 x = 1.
Proof.
  intros Hx. destruct (leb_zero_below_one x Hx) as (Hnan & Hgt & Hlt).
  unfold Float64.Math_max. rewrite Hnan, Hgt, Hlt. reflexivity.
Qed.

End Binary64.

(** The two conversions on known values of JavaScript. *)
Example Math_PI_prints : ToString (Math_PI (N := float)) = "3.141592653589793".
Proof. vm_compute. reflexivity. Qed.

Example toString_values :
  map Float64.Number_toString
    [ 6; 6.25; 0.1; 0.1 + 0.2; 1e21; 1e23; 123456789012345680000; 1e-7;
      0.000001; -1.5; 9007199254740992; nan; infinity; neg_zero ]%float
  = [ "6"; "6.25"; "0.1"; "0.30000000000000004"; "1e+21"; "1e+23";
      "123456789012345680000"; "1e-7"; "0.000001"; "-1.5"; "9007199254740992";
      "NaN"; "Infinity"; "0" ].
Proof. vm_compute. reflexivity. Qed.

Example toFixed1_values :
  map Float64.Number_toFixed1
    [ 16; 0.05; 0.25; 1.45; -0.01; 0.04; 28.274333882308138; 1e21; nan;
      neg_zero ]%float
  = [ "16.0"; "0.1"; "0.3"; "1.4"; "-0.0"; "0.0"; "28.3"; "1e+21"; "NaN"; "0.0" ].
Proof. vm_compute. reflexivity. Qed.

Example literal_values :
  map Float64.literal [0; 1; 2; 2.5; 0.5; 30]%Q = [0; 1; 2; 2.5; 0.5; 30]%float.
Proof. vm_compute. reflexivity. Qed.

(** ** Shapes outside the four kinds *)

(** C1, as stated, fails: for the kind "torus" both geometry functions
    return the number 0; neither call ends in an InvalidShapeKind error. *)
Lemma torus_returns_zero :
  call computeVolumeMeters3 torus = Returns 0%float
  /\ call computeFloorArea torus = Returns 0%float
  /\ call computeVolumeMeters3 torus <> Throws InvalidShapeKind
  /\ call computeFloorArea torus <> Throws InvalidShapeKind.
Proof. repeat split; try reflexivity; discriminate. Qed.

(** C1, amended: for every shape descriptor whose kind is none of
    cylinder, sphere, ellipsoid and box, computeVolume and computeFloorArea
    both return 0, the final [return 0] of each function; no error is
    raised. *)
Theorem unknown_kind_returns_zero {N : Type} `{JsNum N} (d : Dimensions N) :
  d.(type) <> "cylinder" -> d.(type) <> "sphere" ->
  d.(type) <> "ellipsoid" -> d.(type) <> "box" ->
  call computeVolumeMeters3 d = Returns (lit 0)
  /\ call computeFloorArea d = Returns (lit 0).
Proof.
  intros Hc Hs He Hb. unfold call, computeVolumeMeters3, computeFloorArea.
  repeat (destruct (decide _) as [Heq|_]; [contradiction|]).
  split; reflexivity.
Qed.

(** The kind "torus" is none of the four. *)
Lemma unknown_kind_returns_zero_torus :
  call computeVolumeMeters3 torus = Returns (lit 0)
  /\ call computeFloorArea torus = Returns (lit 0).
Proof. apply (unknown_kind_returns_zero torus); discriminate. Defined.

(** ** Mission context *)

(** C2, as stated, fails: with [crew = 0], and with [missionDays = 0], the
    evaluation returns a report; no call ends in InvalidMissionContext.
    With no crew the Sleep zone passes against a required area of 0. *)
Lemma zero_crew_still_reports :
  call (evaluation cylinder_6_8 0%float 180%float) initial_zones
  = Returns
      [ {| ok := true; msg := "Sleep OK: 6 m^2 >= required 0.0 m^2" |};
        {| ok := false; msg := "Missing zone: Recreation" |};
        {| ok := false; msg := "Missing zone: Exercise" |};
        {| ok := false; msg := "Missing zone: Hygiene" |};
        {| ok := true; msg := "ECLSS OK: 4 m^2 >= required 4.0 m^2" |};
        {| ok := false; msg := "Missing zone: Stowage" |};
        {| ok := true; msg := "Total zones 18.0 m^2 within floor area 28.3 m^2" |} ]
  /\ call (evaluation cylinder_6_8 0%float 180%float) initial_zones <> Throws InvalidMissionContext
  /\ call (evaluation cylinder_6_8 4%float 0%float) initial_zones
     = Returns
      [ {| ok := false; msg := "Sleep TOO SMALL: 6 m^2 < required 16.0 m^2" |};
        {| ok := false; msg := "Missing zone: Recreation" |};
        {| ok := false; msg := "Missing zone: Exercise" |};
        {| ok := false; msg := "Missing zone: Hygiene" |};
        {| ok := true; msg := "ECLSS OK: 4 m^2 >= required 4.0 m^2" |};
        {| ok := false; msg := "Missing zone: Stowage" |};
        {| ok := true; msg := "Total zones 18.0 m^2 within floor area 28.3 m^2" |} ]
  /\ call (evaluation cylinder_6_8 4%float 0%float) initial_zones <> Throws InvalidMissionContext.
Proof.
  split; [vm_compute; reflexivity|]. split; [discriminate|].
  split; [vm_compute; reflexivity|discriminate].
Qed.

(** C2, amended: for every call to evaluate where crewSize <= 0 or
    missionDays <= 0, the evaluation raises no error: it returns the report
    of seven results (one per rule, then the floor area check). *)
Theorem nonpositive_context_still_reports
    (crew missionDays floorArea : float) (zonesArr : list (Zone float)) :
  (crew <=? 0)%float = true \/ (missionDays <=? 0)%float = true ->
  exists report,
    call (evaluateZones crew missionDays floorArea) zonesArr = Returns report
    /\ length report = 7%nat.
Proof.
  intros _. eexists. split; [reflexivity|]. apply evaluateZones_length.
Qed.

(** A crew of 0 on the initial zones. *)
Lemma nonpositive_context_zero_crew :
  exists report,
    call (evaluateZones 0%float 180%float 28%float) initial_zones = Returns report
    /\ length report = 7%nat.
Proof.
  apply (nonpositive_context_still_reports 0 180 28 initial_zones).
  left. reflexivity.
Defined.

(** ** Shape of the report *)

(** C5: the report is one result per entry of the rule table, in the
    order of the table, followed by exactly one aggregate result; the
    result of an entry whose name no zone has is [ok: false] with the
    message "Missing zone: <name>", and the call still completes with the
    aggregate result in place. *)
Theorem report_per_rule_then_aggregate {N : Type} `{JsNum N} `{JsFormat N}
    (crew missionDays floorArea : N) (zonesArr : list (Zone N)) :
  exists results aggregate,
    call (evaluateZones crew missionDays floorArea) zonesArr
    = Returns (results ++ [aggregate])
    /\ aggregate = aggregate_result floorArea zonesArr
    /\ length results = length (rules (N := N))
    /\ (forall i kv, rules !! i = Some kv ->
          results !! i
          = Some (rule_result crew missionDays (build_zoneMap zonesArr) kv))
    /\ (forall i k v, rules !! i = Some (k, v) ->
          Forall (fun z => z.(name) <> k) zonesArr ->
          results !! i = Some {| ok := false; msg := "Missing zone: " +:+ k |}).
Proof.
  exists (map (rule_result crew missionDays (build_zoneMap zonesArr)) rules),
         (aggregate_result floorArea zonesArr).
  split; [unfold call; now rewrite evaluateZones_report|].
  split; [reflexivity|]. split; [apply length_map|].
  split.
  - intros i kv Hi. rewrite list_lookup_fmap, Hi. reflexivity.
  - intros i k v Hi Hall. rewrite list_lookup_fmap, Hi. simpl.
    unfold rule_result. simpl.
    now rewrite (build_zoneMap_missing zonesArr k Hall).
Qed.

(** The six names of the table, in the order of its results. *)
Lemma rule_names {N : Type} `{JsNum N} :
  map fst (rules (N := N))
  = ["Sleep"; "Recreation"; "Exercise"; "Hygiene"; "ECLSS"; "Stowage"].
Proof. reflexivity. Qed.

(** With no zone at all, six "Missing zone" results and the aggregate. *)
Example no_zone_report :
  evaluation cylinder_6_8 4%float 180%float []
  = [ {| ok := false; msg := "Missing zone: Sleep" |};
      {| ok := false; msg := "Missing zone: Recreation" |};
      {| ok := false; msg := "Missing zone: Exercise" |};
      {| ok := false; msg := "Missing zone: Hygiene" |};
      {| ok := false; msg := "Missing zone: ECLSS" |};
      {| ok := false; msg := "Missing zone: Stowage" |};
      {| ok := true; msg := "Total zones 0.0 m^2 within floor area 28.3 m^2" |} ].
Proof. vm_compute. reflexivity. Qed.

(** C10: for every zone list, the empty one included, and every numeric
    crew, missionDays and floorArea, the call returns, and the report has
    as many entries as the rule table plus one: seven. *)
Theorem evaluate_returns_seven {N : Type} `{JsNum N} `{JsFormat N}
    (crew missionDays floorArea : N) (zonesArr : list (Zone N)) :
  exists report,
    call (evaluateZones crew missionDays floorArea) zonesArr = Returns report
    /\ length report = S (length (rules (N := N)))
    /\ length report = 7%nat.
Proof.
  eexists. split; [reflexivity|].
  rewrite evaluateZones_length. split; reflexivity.
Qed.

(** ** Zones of the same name *)

(** C6: the lookup that the rule checks use resolves a name to the last
    zone of that name in the sequence (and to nothing when no zone has
    it). *)
Theorem zone_lookup_last_wins {N : Type} (zonesArr : list (Zone N)) (k : string) :
  build_zoneMap zonesArr !! k = last (filter (fun z => z.(name) = k) zonesArr).
Proof. apply build_zoneMap_lookup. Qed.

(** The zone after which no zone of the same name follows is the one
    found. *)
Lemma zone_lookup_shadowing {N : Type} (before after : list (Zone N)) (z : Zone N) :
  Forall (fun z' => z'.(name) <> z.(name)) after ->
  build_zoneMap (before ++ z :: after) !! z.(name) = Some z.
Proof.
  intros Hafter. rewrite build_zoneMap_lookup, filter_app, filter_cons.
  destruct (decide (name z = name z)) as [_|Hne]; [|contradiction].
  assert (filter (fun z' => z'.(name) = z.(name)) after = []) as ->.
  { induction Hafter as [|z' zs Hz _ IH]; [reflexivity|].
    rewrite filter_cons. destruct (decide _); [contradiction | exact IH]. }
  apply last_snoc.
Qed.

(** Two zones named Sleep, of 20 and of 6 square metres: the rule reads
    the later one and fails; the total counts both. *)
Example two_sleeps_report :
  evaluation cylinder_6_8 4%float 180%float two_sleeps
  = [ {| ok := false; msg := "Sleep TOO SMALL: 6 m^2 < required 16.0 m^2" |};
      {| ok := false; msg := "Missing zone: Recreation" |};
      {| ok := false; msg := "Missing zone: Exercise" |};
      {| ok := false; msg := "Missing zone: Hygiene" |};
      {| ok := false; msg := "Missing zone: ECLSS" |};
      {| ok := false; msg := "Missing zone: Stowage" |};
      {| ok := false;
         msg := "TOTAL AREA EXCEEDS USABLE FLOOR AREA: 34.0 m^2 > floor 28.3 m^2" |} ].
Proof. vm_compute. reflexivity. Qed.

(** ** Two calls *)

Section TwoCalls.
Context {N : Type} `{JsNum N} `{JsFormat N}.
Variables (crew missionDays floorArea : N).

Lemma bind_Some {A B : Type} (c : Imp.M N A) (k : A -> Imp.M N B) h a h' :
  c h = Some (a, h') -> Imp.bind c k h = k a h'.
Proof. intros Hc. unfold Imp.bind. now rewrite Hc. Qed.

Lemma lookup_last_but_one (h : Imp.Heap N) c1 c2 :
  (h ++ [c1; c2]) !! length h = Some c1.
Proof. now apply list_lookup_middle. Qed.

Lemma lookup_last_of_two (h : Imp.Heap N) c1 c2 :
  (h ++ [c1; c2]) !! S (length h) = Some c2.
Proof.
  change (h ++ [c1; c2]) with (h ++ [c1] ++ [c2]). rewrite app_assoc.
  apply list_lookup_middle. rewrite length_app. simpl. lia.
Qed.

Lemma insert_last_but_one (h : Imp.Heap N) c1 c2 c :
  <[ length h := c ]> (h ++ [c1; c2]) = h ++ [c; c2].
Proof.
  replace (length h) with (length h + 0)%nat at 1 by lia.
  now rewrite insert_app_r.
Qed.

Lemma insert_last_of_two (h : Imp.Heap N) c1 c2 c :
  <[ S (length h) := c ]> (h ++ [c1; c2]) = h ++ [c1; c].
Proof.
  replace (S (length h)) with (length h + 1)%nat by lia.
  now rewrite insert_app_r.
Qed.

(** The first loop leaves in [zoneMap] what the fold of the assignments
    gives. *)
Lemma forEach_set_prop (zonesArr : list (Zone N)) (h : Imp.Heap N) c m :
  Imp.forEach zonesArr (fun z => Imp.set_prop (S (length h)) z.(name) z)
    (h ++ [c; Imp.ObjectCell m])
  = Some (tt, h ++ [c; Imp.ObjectCell
                         (fold_left (fun zoneMap z => <[ z.(name) := z ]> zoneMap)
                            zonesArr m)]).
Proof.
  revert m. induction zonesArr as [|z zs IH]; intros m; [reflexivity|].
  simpl. unfold Imp.bind, Imp.set_prop at 1.
  rewrite lookup_last_of_two, insert_last_of_two. apply IH.
Qed.

Lemma push_report (h : Imp.Heap N) items c x :
  Imp.push (length h) x (h ++ [Imp.ArrayCell items; c])
  = Some (tt, h ++ [Imp.ArrayCell (items ++ [x]); c]).
Proof.
  unfold Imp.push. now rewrite lookup_last_but_one, insert_last_but_one.
Qed.

(** The second loop pushes what [check_rule] appends. *)
Lemma forEach_rules (rs : list (string * Rule N)) (h : Imp.Heap N) report zm :
  Imp.forEach rs (fun kv =>
      let k := kv.1 in
      let v := kv.2 in
      Imp.bind (Imp.get_prop (S (length h)) k) (fun z =>
      match z with
      | None => Imp.push (length h) {| ok := false; msg := "Missing zone: " +:+ k |}
      | Some z =>
          let required := required_area crew missionDays v in
          if (z.(area_m2) <? required)%js then
            Imp.push (length h)
              {| ok := false;
                 msg := k +:+ " TOO SMALL: " +:+ ToString z.(area_m2)
                        +:+ " m^2 < required " +:+ toFixed1 required +:+ " m^2" |}
          else
            Imp.push (length h)
              {| ok := true;
                 msg := k +:+ " OK: " +:+ ToString z.(area_m2)
                        +:+ " m^2 >= required " +:+ toFixed1 required +:+ " m^2" |}
      end))
    (h ++ [Imp.ArrayCell report; Imp.ObjectCell zm])
  = Some (tt, h ++ [Imp.ArrayCell (fold_left (check_rule crew missionDays zm) rs report);
                    Imp.ObjectCell zm]).
Proof.
  revert report. induction rs as [|[k v] rs IH]; intros report; [reflexivity|].
  simpl. unfold Imp.bind at 1 2, Imp.get_prop at 1.
  rewrite lookup_last_of_two.
  destruct (zm !! k) as [z|]; [destruct (lt _ _)|]; rewrite push_report; apply IH.
Qed.

(** From every heap the call makes two new objects at the end of the heap
    and writes into no other; the array it returns holds the report of
    [evaluateZones], the object the map of [build_zoneMap]. *)
Lemma evaluateZones_heap (zonesArr : list (Zone N)) (h : Imp.Heap N) :
  Imp.evaluateZones crew missionDays floorArea zonesArr h
  = Some (length h,
          h ++ [Imp.ArrayCell (evaluateZones crew missionDays floorArea zonesArr);
                Imp.ObjectCell (build_zoneMap zonesArr)]).
Proof.
  unfold Imp.evaluateZones.
  rewrite (bind_Some _ _ h (length h) (h ++ [Imp.ArrayCell []])) by reflexivity.
  rewrite (bind_Some _ _ _ (S (length h)) (h ++ [Imp.ArrayCell []; Imp.ObjectCell ∅])).
  2:{ unfold Imp.new_object. rewrite length_app, <- app_assoc, Nat.add_1_r. reflexivity. }
  erewrite bind_Some by apply forEach_set_prop.
  erewrite bind_Some by apply forEach_rules.
  unfold evaluateZones, build_zoneMap.
  destruct (lt _ _); (erewrite bind_Some by apply push_report); reflexivity.
Qed.

End TwoCalls.

(** C9: two calls of evaluate on the same zones, crew, missionDays and
    floorArea, the second started from the heap that the first leaves,
    whatever the heap before the first: both return; the two reports are
    two arrays; after both calls they are equal entry by entry, [ok] and
    message alike, and equal to the report that the inputs alone
    determine; no object that was there before is written.  The geometry
    functions return the same number on every heap and leave the heap as
    it is. *)
Theorem two_calls_same_report {N : Type} `{JsNum N} `{JsFormat N}
    (crew missionDays floorArea : N) (zonesArr : list (Zone N))
    (d : Dimensions N) (h : Imp.Heap N) :
  (exists r1 h1 r2 h2 report1 report2,
      Imp.evaluateZones crew missionDays floorArea zonesArr h = Some (r1, h1)
      /\ Imp.evaluateZones crew missionDays floorArea zonesArr h1 = Some (r2, h2)
      /\ r1 <> r2
      /\ h1 !! r1 = Some (Imp.ArrayCell report1)
      /\ h2 !! r1 = Some (Imp.ArrayCell report1)
      /\ h2 !! r2 = Some (Imp.ArrayCell report2)
      /\ Forall2 (fun e1 e2 => e1.(ok) = e2.(ok) /\ e1.(msg) = e2.(msg))
           report1 report2
      /\ report1 = evaluateZones crew missionDays floorArea zonesArr
      /\ (forall a c, h !! a = Some c -> h2 !! a = Some c))
  /\ (forall h' : Imp.Heap N,
        exists volume area,
          Imp.computeVolumeMeters3 d h = Some (volume, h)
          /\ Imp.computeVolumeMeters3 d h' = Some (volume, h')
          /\ Imp.computeFloorArea d h = Some (area, h)
          /\ Imp.computeFloorArea d h' = Some (area, h')).
Proof.
  split; [|intros h'; eexists _, _; repeat split].
  set (report := evaluateZones crew missionDays floorArea zonesArr).
  set (zm := build_zoneMap zonesArr).
  set (h1 := h ++ [Imp.ArrayCell report; Imp.ObjectCell zm]).
  exists (length h), h1, (length h1),
         (h1 ++ [Imp.ArrayCell report; Imp.ObjectCell zm]), report, report.
  split; [apply evaluateZones_heap|]. split; [apply evaluateZones_heap|].
  split; [unfold h1; rewrite length_app; simpl; lia|].
  split; [apply lookup_last_but_one|].
  split; [rewrite (lookup_app_l h1)
            by (unfold h1; rewrite length_app; simpl; lia);
          apply lookup_last_but_one|].
  split; [apply lookup_last_but_one|].
  split; [apply Forall2_same_length_lookup; split; [reflexivity|];
          intros i e1 e2 H1 H2; rewrite H1 in H2; injection H2 as ->; auto|].
  split; [reflexivity|].
  intros a c Ha. unfold h1. rewrite <- app_assoc. now apply lookup_app_l_Some.
Qed.

(** Two calls run from the empty heap on the zones of the example: the
    reports are the objects 0 and 2, the maps the objects 1 and 3, and the
    two arrays hold the same seven entries. *)
Example two_calls_run :
  let expected :=
    Imp.ArrayCell (N := float)
      [ {| ok := false; msg := "Sleep TOO SMALL: 6 m^2 < required 16.0 m^2" |};
        {| ok := false; msg := "Missing zone: Recreation" |};
        {| ok := false; msg := "Missing zone: Exercise" |};
        {| ok := false; msg := "Missing zone: Hygiene" |};
        {| ok := true; msg := "ECLSS OK: 4 m^2 >= required 4.0 m^2" |};
        {| ok := false; msg := "Missing zone: Stowage" |};
        {| ok := true; msg := "Total zones 10.0 m^2 within floor area 28.0 m^2" |} ] in
  match Imp.evaluateZones 4%float 180%float 28%float sleep_and_eclss [] with
  | Some (r1, h1) =>
      match Imp.evaluateZones 4%float 180%float 28%float sleep_and_eclss h1 with
      | Some (r2, h2) => Some (r1, r2, length h2, h2 !! r1, h2 !! r2)
      | None => None
      end
  | None => None
  end
  = Some (0%nat, 2%nat, 4%nat, Some expected, Some expected).
Proof. vm_compute. reflexivity. Qed.

(** ** Geometry *)

Section Geometry.
Context {N : Type} `{JsNum N}.
Local Open Scope js_scope.

(** The four branches, in the order in which the source evaluates each
    expression. *)
Lemma cylinder_source (w h : N) :
  computeVolumeMeters3 (shape "cylinder" w h) = Math_PI * (w / lit 2) * (w / lit 2) * h
  /\ computeFloorArea (shape "cylinder" w h) = Math_PI * (w / lit 2) * (w / lit 2).
Proof. split; reflexivity. Qed.

Lemma sphere_source (w h : N) :
  computeVolumeMeters3 (shape "sphere" w h)
  = (lit 4 / lit 3) * Math_PI * (w / lit 2) * (w / lit 2) * (w / lit 2)
  /\ computeFloorArea (shape "sphere" w h) = Math_PI * (w / lit 2) * (w / lit 2).
Proof. split; reflexivity. Qed.

Lemma ellipsoid_source (w h : N) :
  computeVolumeMeters3 (shape "ellipsoid" w h)
  = (lit 4 / lit 3) * Math_PI * (w / lit 2) * (w / lit 2) * (h / lit 2)
  /\ computeFloorArea (shape "ellipsoid" w h) = Math_PI * (w / lit 2) * (h / lit 2).
Proof. split; reflexivity. Qed.

Lemma box_source (w h : N) :
  computeFloorArea (shape "box" w h) = w * h
  /\ computeVolumeMeters3 (shape "box" w h) = computeFloorArea (shape "box" w h) * lit 2.5.
Proof. split; reflexivity. Qed.

End Geometry.

(** The literals of the source, read as real numbers. *)
Lemma real_literals :
  lit (N := R) 0 = 0%R /\ lit (N := R) 1 = 1%R /\ lit (N := R) 2 = 2%R
  /\ lit (N := R) 3 = 3%R /\ lit (N := R) 4 = 4%R /\ lit (N := R) 30 = 30%R
  /\ lit (N := R) 2.5 = 2.5%R /\ lit (N := R) 0.5 = 0.5%R.
Proof. repeat split; simpl; unfold Q2R; simpl; lra. Qed.

Ltac real_arith :=
  unfold computeVolumeMeters3, computeFloorArea; simpl;
  unfold Q2R; simpl; first [reflexivity | field | lra].

(** C7: for every cylinder, computeVolume is pi (w/2)^2 h and
    computeFloorArea is pi (w/2)^2; for every box, computeFloorArea is w h
    and computeVolume is that floor area times the ceiling height 2.5.
    The first two parts give the expressions as the source evaluates them,
    for any number type; the third reads them over the real numbers; the
    last is box(4, 6) in binary64: floor area 24, volume 60. *)
Theorem cylinder_and_box_geometry :
  (forall (N : Type) (JN : JsNum N) (w h : N),
      computeVolumeMeters3 (shape "cylinder" w h)
      = (Math_PI * (w / lit 2) * (w / lit 2) * h)%js
      /\ computeFloorArea (shape "cylinder" w h)
         = (Math_PI * (w / lit 2) * (w / lit 2))%js)
  /\ (forall (N : Type) (JN : JsNum N) (w h : N),
      computeFloorArea (shape "box" w h) = (w * h)%js
      /\ computeVolumeMeters3 (shape "box" w h)
         = (computeFloorArea (shape "box" w h) * lit 2.5)%js)
  /\ (forall w h : R,
      computeVolumeMeters3 (shape "cylinder" w h) = (PI * (w / 2) ^ 2 * h)%R
      /\ computeFloorArea (shape "cylinder" w h) = (PI * (w / 2) ^ 2)%R
      /\ computeFloorArea (shape "box" w h) = (w * h)%R
      /\ computeVolumeMeters3 (shape "box" w h) = (w * h * 2.5)%R)
  /\ computeFloorArea (shape "box" 4 6)%float = 24%float
  /\ computeVolumeMeters3 (shape "box" 4 6)%float = 60%float.
Proof.
  split; [intros; apply cylinder_source|].
  split; [intros; apply box_source|].
  split; [|split; reflexivity].
  intros w h. repeat split; real_arith.
Qed.

(** C8: for every sphere, computeVolume is (4/3) pi (w/2)^3 and
    computeFloorArea is pi (w/2)^2, the great circle; for every ellipsoid,
    computeVolume is (4/3) pi (w/2)^2 (h/2) and computeFloorArea is
    pi (w/2) (h/2).  First as the source evaluates them, for any number
    type, then over the real numbers. *)
Theorem sphere_and_ellipsoid_geometry :
  (forall (N : Type) (JN : JsNum N) (w h : N),
      computeVolumeMeters3 (shape "sphere" w h)
      = (lit 4 / lit 3 * Math_PI * (w / lit 2) * (w / lit 2) * (w / lit 2))%js
      /\ computeFloorArea (shape "sphere" w h)
         = (Math_PI * (w / lit 2) * (w / lit 2))%js)
  /\ (forall (N : Type) (JN : JsNum N) (w h : N),
      computeVolumeMeters3 (shape "ellipsoid" w h)
      = (lit 4 / lit 3 * Math_PI * (w / lit 2) * (w / lit 2) * (h / lit 2))%js
      /\ computeFloorArea (shape "ellipsoid" w h)
         = (Math_PI * (w / lit 2) * (h / lit 2))%js)
  /\ (forall w h : R,
      computeVolumeMeters3 (shape "sphere" w h) = (4 / 3 * PI * (w / 2) ^ 3)%R
      /\ computeFloorArea (shape "sphere" w h) = (PI * (w / 2) ^ 2)%R
      /\ computeVolumeMeters3 (shape "ellipsoid" w h)
         = (4 / 3 * PI * (w / 2) ^ 2 * (h / 2))%R
      /\ computeFloorArea (shape "ellipsoid" w h) = (PI * (w / 2) * (h / 2))%R).
Proof.
  split; [intros; apply sphere_source|].
  split; [intros; apply ellipsoid_source|].
  intros w h. repeat split; real_arith.
Qed.

(** The four presets in binary64, volume and floor area as JavaScript
    prints them. *)
Example preset_geometry :
  map (fun p => (p.1, ToString (computeVolumeMeters3 p.2), ToString (computeFloorArea p.2)))
      (presets (N := float))
  = [ ("Cylinder", "226.1946710584651", "28.274333882308138");
      ("Box", "60", "24");
      ("Sphere", "65.44984694978736", "19.634954084936208");
      ("Inflatable", "134.0412865531645", "25.132741228718345") ].
Proof. vm_compute. reflexivity. Qed.

(** ** Required areas *)

Section Required.
Context {N : Type} `{JsNum N}.
Variables (crew missionDays : N).

(** The rates and minima of the table are truthy numbers. *)
Hypothesis table_truthy :
  Forall (fun q => ToBoolean (lit q) = true) [4; 2; 3; 0.5]%Q.

(** Every rule object of the table has one field, and the three
    conditional assignments leave the required area of that form. *)
Lemma required_area_by_form k v :
  (k, v) ∈ rules ->
  exists form,
    rule_form v = Some form
    /\ required_area crew missionDays v = required_by_form crew missionDays form.
Proof.
  pose proof table_truthy as Ht.
  apply Forall_cons in Ht as [H4 Ht]. apply Forall_cons in Ht as [H2 Ht].
  apply Forall_cons in Ht as [H3 Ht]. apply Forall_cons in Ht as [H05 _].
  unfold rules. rewrite !elem_of_cons, elem_of_nil.
  intros [Hv|[Hv|[Hv|[Hv|[Hv|[Hv|[]]]]]]]; injection Hv as -> ->;
    (eexists; split; [reflexivity|]);
    unfold required_area, assign_if; simpl;
    rewrite ?H4, ?H2, ?H3, ?H05; reflexivity.
Qed.

End Required.

Lemma float_table_truthy :
  Forall (fun q => ToBoolean (N := float) (lit q) = true) [4; 2; 3; 0.5]%Q.
Proof. repeat constructor. Qed.

Lemma real_table_truthy :
  Forall (fun q => ToBoolean (N := R) (lit q) = true) [4; 2; 3; 0.5]%Q.
Proof.
  repeat constructor; simpl;
    (destruct (Req_dec_T _ 0) as [He|_]; [|reflexivity]);
    unfold Q2R in He; simpl in He; lra.
Qed.

(** Over the real numbers the required area of the table's rules is the
    formula of the form; the grouping of the product does not matter. *)
Lemma required_area_real (crew missionDays : R) k v :
  (k, v) ∈ rules ->
  exists form,
    rule_form v = Some form
    /\ required_area crew missionDays v
       = match form with
         | perCrew rate => (rate * crew)%R
         | perCrewPer30Days rate => (rate * crew * Rmax 1 missionDays / 30)%R
         | fixedMinimum value => value
         end.
Proof.
  intros Hin.
  destruct (required_area_by_form crew missionDays real_table_truthy k v Hin)
    as (form & Hform & Hreq).
  exists form. split; [exact Hform|]. rewrite Hreq.
  destruct form; simpl; [reflexivity| |reflexivity].
  unfold Q2R; simpl. replace (1 * / 1)%R with 1%R by lra. field.
Qed.

(** In binary64 the grouping does matter: the source divides the days by
    30 before it multiplies, and for a crew of 5 on a mission of 10 days
    dividing last gives another double. *)
Example grouping_in_binary64 :
  (0.5 * 5 * (Float64.Math_max 1 10 / 30) =? 0.5 * 5 * Float64.Math_max 1 10 / 30)%float
  = false.
Proof. vm_compute. reflexivity. Qed.

(** ** The check of one rule *)

(** C3, as stated, fails on "both figures reported to one decimal place":
    only the required area goes through [toFixed(1)]; the zone's area is
    printed as JavaScript prints a number.  An area of 6.25 is reported as
    6.25 (to one decimal place it is 6.3), an area of 6 as 6 (not 6.0). *)
Lemma actual_area_not_to_one_decimal :
  evaluation cylinder_6_8 4%float 180%float stowage_quarter !! 5%nat
  = Some {| ok := false; msg := "Stowage TOO SMALL: 6.25 m^2 < required 12.0 m^2" |}
  /\ evaluation cylinder_6_8 4%float 180%float stowage_quarter !! 5%nat
     <> Some {| ok := false;
                msg := "Stowage TOO SMALL: " +:+ toFixed1 6.25%float
                       +:+ " m^2 < required " +:+ toFixed1 12%float +:+ " m^2" |}
  /\ evaluation cylinder_6_8 4%float 180%float sleep_and_eclss !! 0%nat
     = Some {| ok := false; msg := "Sleep TOO SMALL: 6 m^2 < required 16.0 m^2" |}
  /\ evaluation cylinder_6_8 4%float 180%float sleep_and_eclss !! 0%nat
     <> Some {| ok := false;
                msg := "Sleep TOO SMALL: " +:+ toFixed1 6%float
                       +:+ " m^2 < required " +:+ toFixed1 16%float +:+ " m^2" |}.
Proof.
  repeat split; try (vm_compute; reflexivity);
    intros Heq; vm_compute in Heq; discriminate.
Qed.

(** C3, amended: for every rule entry matched to a zone, the required area
    is computed by the rule's form (perCrew(rate): rate * crewSize;
    perCrewPer30Days(rate): rate * crewSize * (max(1, missionDays) / 30);
    fixedMinimum(value): value), and the check fails exactly when the
    zone's area is strictly less than required (equal passes); the message
    reports the required area to one decimal place and the zone's area as
    JavaScript prints the number. *)
Theorem rule_check_by_form (crew missionDays floorArea : float)
    (zonesArr : list (Zone float)) (i : nat) (k : string) (v : Rule float)
    (z : Zone float) :
  rules !! i = Some (k, v) ->
  build_zoneMap zonesArr !! k = Some z ->
  exists form result,
    rule_form v = Some form
    /\ evaluateZones crew missionDays floorArea zonesArr !! i = Some result
    /\ result.(ok)
       = negb (z.(area_m2) <? required_by_form crew missionDays form)%js
    /\ (z.(area_m2) = required_by_form crew missionDays form -> result.(ok) = true)
    /\ result.(msg)
       = k +:+ (if result.(ok) then " OK: " else " TOO SMALL: ")
         +:+ ToString z.(area_m2)
         +:+ (if result.(ok) then " m^2 >= required " else " m^2 < required ")
         +:+ toFixed1 (required_by_form crew missionDays form) +:+ " m^2".
Proof.
  intros Hi Hz.
  assert (Hin : (k, v) ∈ rules (N := float)) by (eapply list_elem_of_lookup_2; eauto).
  destruct (required_area_by_form crew missionDays float_table_truthy k v Hin)
    as (form & Hform & Hreq).
  exists form, (rule_result crew missionDays (build_zoneMap zonesArr) (k, v)).
  split; [exact Hform|]. split.
  { rewrite evaluateZones_report, lookup_app_l.
    - rewrite list_lookup_fmap, Hi. reflexivity.
    - rewrite length_map. eapply lookup_lt_Some; eauto. }
  unfold rule_result. simpl. rewrite Hz, Hreq. simpl.
  destruct (area_m2 z <? required_by_form crew missionDays form)%float eqn:Hlt;
    simpl; repeat split; try reflexivity.
  intros Heq. rewrite Heq, ltb_irrefl in Hlt. discriminate.
Qed.

(** The Sleep rule on a Sleep zone of 6 square metres, crew of 4. *)
Lemma rule_check_by_form_sleep :
  exists form result,
    rule_form {| min_per_crew := Some (lit 4); fixed_min := None;
                 min_per_crew_per_30days := None |} = Some form
    /\ evaluateZones 4%float 180%float 28%float sleep_and_eclss !! 0%nat = Some result
    /\ result.(ok) = negb (6 <? required_by_form 4 180 form)%float
    /\ (6%float = required_by_form 4%float 180%float form -> result.(ok) = true)
    /\ result.(msg)
       = "Sleep" +:+ (if result.(ok) then " OK: " else " TOO SMALL: ")
         +:+ ToString 6%float
         +:+ (if result.(ok) then " m^2 >= required " else " m^2 < required ")
         +:+ toFixed1 (required_by_form 4%float 180%float form) +:+ " m^2".
Proof.
  apply (rule_check_by_form 4 180 28 sleep_and_eclss 0 "Sleep"
           {| min_per_crew := Some (lit 4); fixed_min := None;
              min_per_crew_per_30days := None |}
           {| id := 1; name := "Sleep"; area_m2 := 6%float |});
    reflexivity.
Defined.

(** The example of the specification: a crew of 4 for 180 days, Sleep of
    6 square metres against 4 per crew member, ECLSS of 4 against the fixed
    minimum 4. *)
Example sleep_and_eclss_report :
  evaluation cylinder_6_8 4%float 180%float sleep_and_eclss
  = [ {| ok := false; msg := "Sleep TOO SMALL: 6 m^2 < required 16.0 m^2" |};
      {| ok := false; msg := "Missing zone: Recreation" |};
      {| ok := false; msg := "Missing zone: Exercise" |};
      {| ok := false; msg := "Missing zone: Hygiene" |};
      {| ok := true; msg := "ECLSS OK: 4 m^2 >= required 4.0 m^2" |};
      {| ok := false; msg := "Missing zone: Stowage" |};
      {| ok := true; msg := "Total zones 10.0 m^2 within floor area 28.3 m^2" |} ].
Proof. vm_compute. reflexivity. Qed.

(** ** The floor area check *)

(** [area || 0] is the area itself when it is a real number [>= 0]. *)
Lemma or_zero_nonneg (x : float) :
  Float64.is_nonneg_real x = true -> (x || lit 0)%js = x.
Proof.
  unfold Float64.is_nonneg_real. simpl. unfold Float64.ToBoolean, is_nan, is_zero.
  rewrite !FloatAxioms.eqb_spec. change (Prim2SF zero) with (S754_zero false).
  destruct (Prim2SF x) as [[]|[]| |[] m e] eqn:Hx; try discriminate; intros _.
  - simpl. symmetry. apply Prim2SF_inj. rewrite Hx. reflexivity.
  - unfold SFeqb, SFcompare.
    rewrite Z.compare_refl, Pos.compare_cont_refl. reflexivity.
Qed.

(** On such areas [reduce] computes the plain sum. *)
Lemma total_area_sum (zonesArr : list (Zone float)) :
  Forall (fun z => Float64.is_nonneg_real z.(area_m2) = true) zonesArr ->
  total_area zonesArr = sum_areas zonesArr.
Proof.
  intros Hall. unfold total_area, sum_areas.
  assert (Hgen : forall a : float,
    fold_left (fun a b => a + (b.(area_m2) || lit 0))%js zonesArr a
    = fold_left (fun a z => a + z.(area_m2))%js zonesArr a); [|apply Hgen].
  induction Hall as [|z zs Hz _ IH]; intros a; [reflexivity|].
  cbn [fold_left]. rewrite (or_zero_nonneg _ Hz). apply IH.
Qed.

(** Over the real numbers [area || 0] is the area, and the total is the
    sum of the areas of all zones. *)
Lemma total_area_real (zonesArr : list (Zone R)) :
  total_area zonesArr = fold_right Rplus 0%R (map area_m2 zonesArr).
Proof.
  unfold total_area.
  assert (Hgen : forall a : R,
    fold_left (fun a b => a + (b.(area_m2) || lit 0))%js zonesArr a
    = (a + fold_right Rplus 0 (map area_m2 zonesArr))%R).
  { induction zonesArr as [|z zs IH]; intros a; simpl; [lra|].
    rewrite IH. destruct (Req_dec_T (area_m2 z) 0) as [Hz|_].
    - rewrite Hz. unfold Q2R; simpl. lra.
    - lra. }
  rewrite Hgen. simpl. unfold Q2R; simpl. lra.
Qed.

(** C4: the last entry of the report is the aggregate result: the total
    is the sum of the areas of all zones of the list, matched by a rule or
    not; the result fails exactly when the total is strictly greater than
    the floor area (equal passes); it is always there and always last. *)
Theorem aggregate_check_last (crew missionDays floorArea : float)
    (zonesArr : list (Zone float)) :
  Forall (fun z => Float64.is_nonneg_real z.(area_m2) = true) zonesArr ->
  exists results aggregate,
    evaluateZones crew missionDays floorArea zonesArr = results ++ [aggregate]
    /\ last (evaluateZones crew missionDays floorArea zonesArr) = Some aggregate
    /\ aggregate.(ok) = negb (sum_areas zonesArr >? floorArea)%js
    /\ (sum_areas zonesArr = floorArea -> aggregate.(ok) = true)
    /\ aggregate.(msg)
       = if aggregate.(ok)
         then "Total zones " +:+ toFixed1 (sum_areas zonesArr)
              +:+ " m^2 within floor area " +:+ toFixed1 floorArea +:+ " m^2"
         else "TOTAL AREA EXCEEDS USABLE FLOOR AREA: "
              +:+ toFixed1 (sum_areas zonesArr) +:+ " m^2 > floor "
              +:+ toFixed1 floorArea +:+ " m^2".
Proof.
  intros Hall.
  exists (map (rule_result crew missionDays (build_zoneMap zonesArr)) rules),
         (aggregate_result floorArea zonesArr).
  rewrite evaluateZones_report. split; [reflexivity|].
  split; [apply last_snoc|].
  unfold aggregate_result. rewrite (total_area_sum zonesArr Hall). simpl.
  destruct (floorArea <? sum_areas zonesArr)%float eqn:Hgt;
    simpl; repeat split; try reflexivity.
  intros Heq. rewrite Heq, ltb_irrefl in Hgt. discriminate.
Qed.

(** Zones of 16, 10 and 4 square metres in the cylinder of diameter 6. *)
Lemma aggregate_check_thirty :
  exists results aggregate,
    evaluateZones 4%float 180%float (computeFloorArea cylinder_6_8)
      thirty_square_metres = results ++ [aggregate]
    /\ last (evaluateZones 4%float 180%float (computeFloorArea cylinder_6_8)
               thirty_square_metres) = Some aggregate
    /\ aggregate.(ok)
       = negb (sum_areas thirty_square_metres >? computeFloorArea cylinder_6_8)%js
    /\ (sum_areas thirty_square_metres = computeFloorArea cylinder_6_8
        -> aggregate.(ok) = true)
    /\ aggregate.(msg)
       = if aggregate.(ok)
         then "Total zones " +:+ toFixed1 (sum_areas thirty_square_metres)
              +:+ " m^2 within floor area "
              +:+ toFixed1 (computeFloorArea cylinder_6_8) +:+ " m^2"
         else "TOTAL AREA EXCEEDS USABLE FLOOR AREA: "
              +:+ toFixed1 (sum_areas thirty_square_metres) +:+ " m^2 > floor "
              +:+ toFixed1 (computeFloorArea cylinder_6_8) +:+ " m^2".
Proof.
  apply (aggregate_check_last 4 180 (computeFloorArea cylinder_6_8)
           thirty_square_metres).
  repeat constructor.
Defined.

(** The example of the specification: zones of 30 square metres in all
    against the floor of the cylinder of diameter 6, about 28.27. *)
Example thirty_against_cylinder :
  last (evaluation cylinder_6_8 4%float 180%float thirty_square_metres)
  = Some {| ok := false;
            msg := "TOTAL AREA EXCEEDS USABLE FLOOR AREA: 30.0 m^2 > floor 28.3 m^2" |}.
Proof. vm_compute. reflexivity. Qed.

(** An area that is not a number is left out of the total, the [|| 0] of
    the source, and passes the check of its rule. *)
Example nan_area_report :
  evaluation cylinder_6_8 4%float 180%float
    [ {| id := 1; name := "Hygiene"; area_m2 := nan |};
      {| id := 2; name := "ECLSS"; area_m2 := 4%float |} ]
  = [ {| ok := false; msg := "Missing zone: Sleep" |};
      {| ok := false; msg := "Missing zone: Recreation" |};
      {| ok := false; msg := "Missing zone: Exercise" |};
      {| ok := true; msg := "Hygiene OK: NaN m^2 >= required 3.0 m^2" |};
      {| ok := true; msg := "ECLSS OK: 4 m^2 >= required 4.0 m^2" |};
      {| ok := false; msg := "Missing zone: Stowage" |};
      {| ok := true; msg := "Total zones 4.0 m^2 within floor area 28.3 m^2" |} ].
Proof. vm_compute. reflexivity. Qed.

(** * The zone list and its handlers *)

Section EditingFacts.
Context {N : Type} `{JsNum N}.

Lemma removeZone_app zid (z1 z2 : list (Zone N)) :
  removeZone zid (z1 ++ z2) = removeZone zid z1 ++ removeZone zid z2.
Proof. apply filter_app. Qed.

Lemma removeZone_fresh zid (z : list (Zone N)) :
  Forall (fun x => x.(id) <> zid) z -> removeZone zid z = z.
Proof.
  induction 1 as [|x z Hx _ IH]; [reflexivity|].
  unfold removeZone in *. rewrite filter_cons.
  destruct (decide (id x <> zid)); [now rewrite IH | contradiction].
Qed.

Lemma removeZone_new now (z : list (Zone N)) :
  removeZone now (addZone now z) = removeZone now z.
Proof.
  unfold addZone. rewrite removeZone_app. unfold removeZone at 2.
  rewrite filter_cons. simpl.
  destruct (decide (now <> now)); [contradiction | apply app_nil_r].
Qed.

(** X1: Remove on a zone that Add zone has just made, under an id that no
    other zone has, gives the list back as it was. *)
Theorem removeZone_undoes_addZone now (z : list (Zone N)) :
  Forall (fun x => x.(id) <> now) z ->
  removeZone now (addZone now z) = z.
Proof. intros Hfresh. rewrite removeZone_new. now apply removeZone_fresh. Qed.

(** X2: the id of a new zone is the time of the click, so two zones added
    at the same [Date.now()] share it, and Remove on that id takes both
    away, with every older zone of that id. *)
Theorem removeZone_takes_same_click now (z : list (Zone N)) :
  removeZone now (addZone now (addZone now z)) = removeZone now z
  /\ Forall (fun x => x.(id) <> now) (removeZone now (addZone now (addZone now z))).
Proof.
  split; [now rewrite !removeZone_new|].
  apply Forall_forall. intros x Hx.
  unfold removeZone in Hx. apply list_elem_of_filter in Hx. tauto.
Qed.

(** X3: [updateZone] with a patch that carries no id keeps the number of
    zones and every id at its place, and leaves every zone of another id
    as it is. *)
Theorem updateZone_keeps_ids zid (patch : Patch N) (z : list (Zone N)) :
  patch.(patch_id) = None ->
  length (updateZone zid patch z) = length z
  /\ map id (updateZone zid patch z) = map id z
  /\ (forall i x, z !! i = Some x -> x.(id) <> zid ->
        updateZone zid patch z !! i = Some x).
Proof.
  intros Hid. unfold updateZone. split; [apply length_map|]. split.
  - rewrite map_map. apply map_ext. intros x.
    destruct (decide (id x = zid)); [|reflexivity].
    unfold spread. simpl. now rewrite Hid.
  - intros i x Hi Hne. rewrite list_lookup_fmap, Hi. simpl.
    destruct (decide (id x = zid)); [contradiction | reflexivity].
Qed.

(** X4: once a zone is removed, an edit addressed to its id changes
    nothing; and an edit that carries no id, followed by Remove on the
    same id, is Remove alone. *)
Theorem updateZone_removeZone zid (patch : Patch N) (z : list (Zone N)) :
  updateZone zid patch (removeZone zid z) = removeZone zid z
  /\ (patch.(patch_id) = None ->
      removeZone zid (updateZone zid patch z) = removeZone zid z).
Proof.
  split.
  - unfold updateZone, removeZone. induction z as [|x z IH]; [reflexivity|].
    rewrite filter_cons. destruct (decide (id x <> zid)) as [Hne|]; [|exact IH].
    simpl. rewrite IH. destruct (decide (id x = zid)); [contradiction | reflexivity].
  - intros Hid. unfold updateZone, removeZone.
    induction z as [|x z IH]; [reflexivity|].
    simpl. rewrite !filter_cons, IH.
    destruct (decide (id x = zid)) as [Heq|Hne].
    + unfold spread at 1. simpl. rewrite Hid. simpl.
      destruct (decide (id x <> zid)); [contradiction|].
      destruct (decide (id x <> zid)); [contradiction | reflexivity].
    + destruct (decide (id x <> zid)); [reflexivity | contradiction].
Qed.

(** X5: of two edits of the same field of a zone the later one stands, and
    an edit of the name and an edit of the area can be made in either
    order. *)
Theorem updateZone_edits zid (s1 s2 : string) (a1 a2 : N) (z : list (Zone N)) :
  let rename s := {| patch_id := None; patch_name := Some s; patch_area_m2 := None |} in
  let resize a := {| patch_id := None; patch_name := None; patch_area_m2 := Some a |} in
  updateZone zid (rename s2) (updateZone zid (rename s1) z) = updateZone zid (rename s2) z
  /\ updateZone zid (resize a2) (updateZone zid (resize a1) z) = updateZone zid (resize a2) z
  /\ updateZone zid (rename s1) (updateZone zid (resize a1) z)
     = updateZone zid (resize a1) (updateZone zid (rename s1) z).
Proof.
  simpl. unfold updateZone. rewrite !map_map.
  repeat split; apply map_ext; intros x;
    destruct (decide (id x = zid)) as [Heq|Hne]; simpl;
    repeat (destruct (decide _); try contradiction); reflexivity.
Qed.

End EditingFacts.

(** The initial zones have the ids 1, 2 and 3. *)
Lemma removeZone_undoes_addZone_initial :
  removeZone 1700000000000 (addZone 1700000000000 (initial_zones (N := float)))
  = initial_zones.
Proof.
  apply (removeZone_undoes_addZone 1700000000000 initial_zones).
  repeat constructor; discriminate.
Defined.

(** The zone of id 2 renamed. *)
Lemma updateZone_keeps_ids_rename :
  length (updateZone 2 {| patch_id := None; patch_name := Some "Galley";
                          patch_area_m2 := None |} (initial_zones (N := float)))
  = length (initial_zones (N := float))
  /\ map id (updateZone 2 {| patch_id := None; patch_name := Some "Galley";
                             patch_area_m2 := None |} (initial_zones (N := float)))
     = map id (initial_zones (N := float))
  /\ (forall i x, initial_zones (N := float) !! i = Some x -> x.(id) <> 2 ->
        updateZone 2 {| patch_id := None; patch_name := Some "Galley";
                        patch_area_m2 := None |} initial_zones !! i = Some x).
Proof.
  apply (updateZone_keeps_ids 2
           {| patch_id := None; patch_name := Some "Galley"; patch_area_m2 := None |}
           initial_zones).
  reflexivity.
Defined.

(** ** Zones that no rule names *)

Section OtherZones.
Context {N : Type} `{JsNum N} `{JsFormat N}.

Lemma filter_subsumed {A : Type} (P Q : A -> Prop)
    `{forall x, Decision (P x)} `{forall x, Decision (Q x)} (l : list A) :
  (forall x, P x -> Q x) -> filter P (filter Q l) = filter P l.
Proof.
  intros HPQ. induction l as [|x l IH]; [reflexivity|].
  rewrite (filter_cons Q). destruct (decide (Q x)) as [HQ|HQ].
  - rewrite !filter_cons, IH. reflexivity.
  - rewrite filter_cons. destruct (decide (P x)) as [HP|HP]; [|exact IH].
    destruct (HQ (HPQ x HP)).
Qed.

(** The six results of the rules, the report without its last entry. *)
Lemma rule_results crew missionDays floorArea (z : list (Zone N)) :
  take 6 (evaluateZones crew missionDays floorArea z)
  = map (rule_result crew missionDays (build_zoneMap z)) rules.
Proof.
  rewrite evaluateZones_report.
  now rewrite (take_app_length' _ _ 6) by reflexivity.
Qed.

(** A rule reads the map at its own name only. *)
Lemma rule_result_lookup crew missionDays (zm zm' : gmap string (Zone N)) kv :
  zm !! kv.1 = zm' !! kv.1 ->
  rule_result crew missionDays zm kv = rule_result crew missionDays zm' kv.
Proof. intros Heq. unfold rule_result. now rewrite Heq. Qed.

Lemma rule_results_same_lookups crew missionDays floorArea floorArea'
    (z z' : list (Zone N)) :
  (forall k, k ∈ map fst (rules (N := N)) ->
     build_zoneMap z !! k = build_zoneMap z' !! k) ->
  take 6 (evaluateZones crew missionDays floorArea z)
  = take 6 (evaluateZones crew missionDays floorArea' z').
Proof.
  intros Hsame. rewrite !rule_results.
  apply list_eq. intros i. rewrite !list_lookup_fmap.
  destruct (rules !! i) as [kv|] eqn:Hi; [|reflexivity]. simpl. f_equal.
  apply rule_result_lookup, Hsame.
  apply list_elem_of_fmap. exists kv. split; [reflexivity|].
  eapply list_elem_of_lookup_2; eauto.
Qed.

(** X6: the six results of the rules depend on the zones that carry the
    name of a rule only (and not on the floor area): every other zone can
    be left out without changing them. *)
Theorem rule_results_ignore_other_zones crew missionDays floorArea floorArea'
    (z : list (Zone N)) :
  take 6 (evaluateZones crew missionDays floorArea z)
  = take 6 (evaluateZones crew missionDays floorArea'
              (filter (fun x => x.(name) ∈ map fst (rules (N := N))) z)).
Proof.
  apply rule_results_same_lookups. intros k Hk.
  rewrite !build_zoneMap_lookup. f_equal. symmetry.
  apply filter_subsumed. now intros x ->.
Qed.

Lemma build_zoneMap_addZone now (z : list (Zone N)) k :
  k <> "New" -> build_zoneMap (addZone now z) !! k = build_zoneMap z !! k.
Proof.
  intros Hk. rewrite !build_zoneMap_lookup. unfold addZone.
  rewrite filter_app, filter_cons. simpl.
  destruct (decide ("New" = k)) as [Heq|_]; [now destruct Hk|].
  now rewrite filter_nil, app_nil_r.
Qed.

Lemma total_area_app (z1 z2 : list (Zone N)) :
  total_area (z1 ++ z2)
  = fold_left (fun a b => a + (b.(area_m2) || lit 0))%js z2 (total_area z1).
Proof. unfold total_area. apply fold_left_app. Qed.

End OtherZones.

(** X7: Add zone leaves the six results of the rules as they are (no rule
    is named "New") and raises the total of the floor area check by 2. *)
Theorem addZone_report (crew missionDays floorArea : float) (now : Z)
    (z : list (Zone float)) :
  take 6 (evaluateZones crew missionDays floorArea (addZone now z))
  = take 6 (evaluateZones crew missionDays floorArea z)
  /\ total_area (addZone now z) = (total_area z + 2)%float.
Proof.
  split.
  - apply rule_results_same_lookups. intros k Hk.
    apply build_zoneMap_addZone. intros ->.
    repeat (apply elem_of_cons in Hk as [Hk|Hk]; [discriminate|]).
    now apply elem_of_nil in Hk.
  - unfold addZone. rewrite total_area_app. reflexivity.
Qed.

(** ** The kind of the shape in every state *)

Section Reachable.
Context {N : Type} `{JsNum N} `{JsFormat N}.

Lemma preset_kind p (d : Dimensions N) :
  Component.preset p = Some d ->
  d.(type) ∈ ["cylinder"; "sphere"; "ellipsoid"; "box"].
Proof.
  unfold Component.preset.
  destruct (list_find _ _) as [[i kv]|] eqn:Hfind; [|discriminate].
  intros [= <-]. apply list_find_Some in Hfind as (Hi & _ & _).
  destruct i as [|[|[|[|i]]]]; simpl in Hi; try discriminate;
    injection Hi as <-; simpl; set_solver.
Qed.

Lemma kind_of_preset_handle st e st' :
  kind_of_preset st -> Component.handle st e = Some st' -> kind_of_preset st'.
Proof.
  intros (d & Hd & Ht) He. destruct e; simpl in He;
    try (injection He as <-; exists d; split; assumption).
  destruct (Component.preset p) as [d'|] eqn:Hp; [|discriminate].
  injection He as <-. exists d'. split; [exact Hp | reflexivity].
Qed.

Lemma kind_of_preset_run events : forall st st',
  kind_of_preset st -> Component.run st events = Some st' -> kind_of_preset st'.
Proof.
  induction events as [|e events IH]; intros st st' Hst Hrun; simpl in Hrun.
  - now injection Hrun as <-.
  - destruct (Component.handle st e) as [st1|] eqn:He; [|discriminate].
    eapply IH; [|exact Hrun]. eapply kind_of_preset_handle; eauto.
Qed.

(** X8: in every state that the handlers reach from the initial one, the
    kind of [dimensions] is the kind of the preset that [shapeName] names,
    one of cylinder, sphere, ellipsoid and box: editing the two dimensions
    keeps the kind, so a render never takes the [return 0] of the geometry
    functions for want of a kind. *)
Theorem kind_stays_a_preset_kind (events : list (Component.Event N))
    (st : Component.State N) :
  Component.run Component.initial events = Some st ->
  (exists d, Component.preset st.(Component.shapeName) = Some d
             /\ st.(Component.dimensions).(type) = d.(type))
  /\ st.(Component.dimensions).(type) ∈ ["cylinder"; "sphere"; "ellipsoid"; "box"].
Proof.
  intros Hrun.
  assert (Hk : kind_of_preset st).
  { eapply kind_of_preset_run; [|exact Hrun].
    eexists. split; reflexivity. }
  split; [exact Hk|]. destruct Hk as (d & Hd & ->). eapply preset_kind, Hd.
Qed.

End Reachable.

(** The Box preset selected, then a width of 3 typed. *)
Lemma kind_stays_a_preset_kind_box :
  (exists d, Component.preset (N := float) "Box" = Some d /\ "box" = d.(type))
  /\ "box" ∈ ["cylinder"; "sphere"; "ellipsoid"; "box"].
Proof.
  apply (kind_stays_a_preset_kind
           [Component.SelectPreset "Box"; Component.InputW 3%float]
           {| Component.shapeName := "Box";
              Component.dimensions := {| w := 3%float; h := lit 6; type := "box" |};
              Component.crew := lit 4; Component.missionDays := lit 180;
              Component.zones := initial_zones |}).
  reflexivity.
Defined.

(** * Order of binary64 and what the checks make of it *)

Section Order.
Local Open Scope float_scope.

Lemma SFcompare_antisym x y : SFcompare y x = option_map CompOpp (SFcompare x y).
Proof.
  destruct x as [[]|[]| |[] mx ex], y as [[]|[]| |[] my ey]; try reflexivity;
    unfold SFcompare; simpl;
    change (Pos.compare_cont Eq ?p ?q) with (Pos.compare p q);
    rewrite (Z.compare_antisym ex ey), (Pos.compare_antisym mx my);
    destruct (ex ?= ey)%Z; simpl; try reflexivity;
    now rewrite CompOpp_involutive.
Qed.

Lemma SFcompare_refl x : x <> S754_nan -> SFcompare x x = Some Eq.
Proof.
  destruct x as [[]|[]| |[] m e]; try reflexivity; try congruence; intros _;
    unfold SFcompare; rewrite Z.compare_refl, Pos.compare_cont_refl; reflexivity.
Qed.

Lemma SFcompare_trans_Lt a b c :
  SFcompare a b = Some Lt -> SFcompare b c = Some Lt -> SFcompare a c = Some Lt.
Proof.
  destruct a as [[]|[]| |[] ma ea], b as [[]|[]| |[] mb eb], c as [[]|[]| |[] mc ec];
    simpl; try discriminate; try reflexivity;
    change (Pos.compare_cont Eq ?p ?q) with (Pos.compare p q);
    destruct (Z.compare_spec ea eb), (Z.compare_spec eb ec), (Z.compare_spec ea ec);
    try discriminate; try reflexivity; try lia; subst;
    destruct (Pos.compare_spec ma mb), (Pos.compare_spec mb mc), (Pos.compare_spec ma mc);
    simpl; try discriminate; try reflexivity; try lia.
Qed.

Lemma SFcompare_Eq_left a b c :
  SFcompare a b = Some Eq -> SFcompare a c = SFcompare b c.
Proof.
  destruct a as [[]|[]| |[] ma ea], b as [[]|[]| |[] mb eb];
    simpl; try discriminate; try reflexivity;
    change (Pos.compare_cont Eq ?p ?q) with (Pos.compare p q);
    destruct (Z.compare_spec ea eb); try discriminate;
    destruct (Pos.compare_spec ma mb); simpl; try discriminate;
    subst; reflexivity.
Qed.

(** [a <= b] and [b < c] give [a < c]. *)
Lemma leb_ltb_trans (a b c : float) :
  (a <=? b) = true -> (b <? c) = true -> (a <? c) = true.
Proof.
  rewrite FloatAxioms.leb_spec, !FloatAxioms.ltb_spec. unfold SFleb, SFltb.
  destruct (SFcompare (Prim2SF a) (Prim2SF b)) as [[]|] eqn:Hab; try discriminate;
    intros _;
    destruct (SFcompare (Prim2SF b) (Prim2SF c)) as [[]|] eqn:Hbc; try discriminate;
    intros _.
  - now rewrite (SFcompare_Eq_left _ _ _ Hab), Hbc.
  - now rewrite (SFcompare_trans_Lt _ _ _ Hab Hbc).
Qed.

(** [a < b] and [b <= c] give [a < c]. *)
Lemma ltb_leb_trans (a b c : float) :
  (a <? b) = true -> (b <=? c) = true -> (a <? c) = true.
Proof.
  rewrite FloatAxioms.leb_spec, !FloatAxioms.ltb_spec. unfold SFleb, SFltb.
  destruct (SFcompare (Prim2SF a) (Prim2SF b)) as [[]|] eqn:Hab; try discriminate;
    intros _;
    destruct (SFcompare (Prim2SF b) (Prim2SF c)) as [[]|] eqn:Hbc; try discriminate;
    intros _.
  - rewrite SFcompare_antisym in Hbc.
    destruct (SFcompare (Prim2SF c) (Prim2SF b)) as [[]|] eqn:Hcb; try discriminate.
    rewrite (SFcompare_antisym (Prim2SF c) (Prim2SF a)).
    rewrite (SFcompare_Eq_left _ _ _ Hcb).
    rewrite (SFcompare_antisym (Prim2SF a) (Prim2SF b)), Hab. reflexivity.
  - now rewrite (SFcompare_trans_Lt _ _ _ Hab Hbc).
Qed.

Lemma is_nan_spec (x : float) : is_nan x = true <-> Prim2SF x = S754_nan.
Proof.
  unfold is_nan. rewrite FloatAxioms.eqb_spec. unfold SFeqb. split.
  - destruct (Prim2SF x) as [[]|[]| |[] m e] eqn:Hx; try reflexivity;
      try discriminate;
      unfold SFcompare; rewrite Z.compare_refl, Pos.compare_cont_refl; discriminate.
  - intros ->. reflexivity.
Qed.

(** Every comparison with NaN is false. *)
Lemma nan_ltb (x y : float) : is_nan x = true -> (x <? y) = false /\ (y <? x) = false.
Proof.
  intros Hx. apply is_nan_spec in Hx. rewrite !FloatAxioms.ltb_spec, Hx.
  split; [reflexivity|]. unfold SFltb. now destruct (Prim2SF y) as [[]|[]| |[] m e].
Qed.

(** [Math.max(1, x)] is 1 for every [x <= 1]. *)
Lemma Math_max_one_below (x : float) : (x <=? 1) = true -> Float64.Math_max 1 x = 1.
Proof.
  intros Hx. unfold Float64.Math_max.
  assert (Hnan : is_nan x = false).
  { destruct (is_nan x) eqn:Hn; [|reflexivity]. apply is_nan_spec in Hn.
    rewrite FloatAxioms.leb_spec, Hn in Hx. discriminate. }
  rewrite Hnan. simpl.
  destruct (1 <? x) eqn:Hlt.
  - pose proof (ltb_leb_trans 1 x 1 Hlt Hx) as Hirr.
    rewrite ltb_irrefl in Hirr. discriminate.
  - now destruct (x <? 1).
Qed.

(** [Math.max(a, b)] is at least [a] when neither is NaN. *)
Lemma Math_max_ge_left (a b : float) :
  is_nan a = false -> is_nan b = false -> (a <=? Float64.Math_max a b) = true.
Proof.
  intros Ha Hb. unfold Float64.Math_max. rewrite Ha, Hb. simpl.
  assert (Hna : Prim2SF a <> S754_nan).
  { intros Hn. apply is_nan_spec in Hn. congruence. }
  assert (Hnb : Prim2SF b <> S754_nan).
  { intros Hn. apply is_nan_spec in Hn. congruence. }
  assert (Hrefl : (a <=? a) = true).
  { rewrite FloatAxioms.leb_spec. unfold SFleb. now rewrite SFcompare_refl. }
  destruct (a <? b) eqn:Hab.
  - rewrite FloatAxioms.ltb_spec in Hab. rewrite FloatAxioms.leb_spec.
    unfold SFltb in Hab. unfold SFleb.
    now destruct (SFcompare (Prim2SF a) (Prim2SF b)) as [[]|].
  - destruct (b <? a) eqn:Hba; [exact Hrefl|].
    destruct (get_sign a); [|exact Hrefl].
    rewrite FloatAxioms.ltb_spec in Hab, Hba. rewrite FloatAxioms.leb_spec.
    unfold SFltb in Hab, Hba. unfold SFleb.
    rewrite (SFcompare_antisym (Prim2SF a) (Prim2SF b)) in Hba.
    destruct (SFcompare (Prim2SF a) (Prim2SF b)) as [[]|] eqn:Hc;
      try reflexivity; try discriminate.
    destruct (Prim2SF a) as [[]|[]| |[] ma ea], (Prim2SF b) as [[]|[]| |[] mb eb];
      try discriminate; congruence.
Qed.

End Order.

Section FloatChecks.
Local Open Scope float_scope.
Variables (crew missionDays floorArea : float).

Lemma required_area_short_mission (v : Rule float) :
  (missionDays <=? 1) = true ->
  required_area crew missionDays v = required_area crew 1 v.
Proof.
  intros Hd. unfold required_area.
  change (Math_max (lit 1) missionDays) with (Float64.Math_max 1 missionDays).
  now rewrite (Math_max_one_below missionDays Hd).
Qed.

Lemma rule_result_found (zm : gmap string (Zone float)) k v z :
  zm !! k = Some z ->
  rule_result crew missionDays zm (k, v)
  = if (z.(area_m2) <? required_area crew missionDays v)
    then {| ok := false;
            msg := k +:+ " TOO SMALL: " +:+ ToString z.(area_m2)
                   +:+ " m^2 < required "
                   +:+ toFixed1 (required_area crew missionDays v) +:+ " m^2" |}
    else {| ok := true;
            msg := k +:+ " OK: " +:+ ToString z.(area_m2)
                   +:+ " m^2 >= required "
                   +:+ toFixed1 (required_area crew missionDays v) +:+ " m^2" |}.
Proof. intros Hz. unfold rule_result. simpl. now rewrite Hz. Qed.

Lemma evaluateZones_rule (z : list (Zone float)) i kv :
  rules !! i = Some kv ->
  evaluateZones crew missionDays floorArea z !! i
  = Some (rule_result crew missionDays (build_zoneMap z) kv).
Proof.
  intros Hi. rewrite evaluateZones_report, lookup_app_l.
  - now rewrite list_lookup_fmap, Hi.
  - rewrite length_map. eapply lookup_lt_Some; eauto.
Qed.

End FloatChecks.

(** X9: a mission of at most one day (zero and negative numbers of days
    included) is evaluated as a mission of one day: the whole report is
    the report for [missionDays = 1]. *)
Theorem short_mission_is_one_day (crew missionDays floorArea : float)
    (z : list (Zone float)) :
  (missionDays <=? 1)%float = true ->
  evaluateZones crew missionDays floorArea z = evaluateZones crew 1%float floorArea z.
Proof.
  intros Hd. rewrite !evaluateZones_report. f_equal.
  apply map_ext. intros [k v]. unfold rule_result. simpl.
  now rewrite (required_area_short_mission crew missionDays v Hd).
Qed.

(** A mission of minus five days. *)
Lemma short_mission_negative_days :
  evaluateZones 4%float (-5)%float 28%float initial_zones
  = evaluateZones 4%float 1%float 28%float initial_zones.
Proof.
  apply (short_mission_is_one_day 4 (-5) 28 initial_zones). reflexivity.
Defined.

(** X10: a zone whose area is NaN passes the check of its rule, whatever
    the required area: the comparison [NaN < required] is false, and the
    message reads "OK: NaN m^2 >= required ...". *)
Theorem nan_area_passes (crew missionDays floorArea : float)
    (z : list (Zone float)) (i : nat) (k : string) (v : Rule float)
    (zone : Zone float) :
  rules !! i = Some (k, v) ->
  build_zoneMap z !! k = Some zone ->
  is_nan zone.(area_m2) = true ->
  evaluateZones crew missionDays floorArea z !! i
  = Some {| ok := true;
            msg := k +:+ " OK: NaN m^2 >= required "
                   +:+ toFixed1 (required_area crew missionDays v) +:+ " m^2" |}.
Proof.
  intros Hi Hz Hnan.
  rewrite (evaluateZones_rule _ _ _ _ _ _ Hi), (rule_result_found _ _ _ _ _ _ Hz).
  destruct (nan_ltb zone.(area_m2) (required_area crew missionDays v) Hnan) as [-> _].
  simpl. unfold Float64.Number_toString.
  apply is_nan_spec in Hnan. now rewrite Hnan.
Qed.

(** A Hygiene zone with the area NaN. *)
Lemma nan_area_passes_hygiene :
  evaluateZones 4%float 180%float 28%float
    [ {| id := 1; name := "Hygiene"; area_m2 := nan |} ] !! 3%nat
  = Some {| ok := true;
            msg := "Hygiene" +:+ " OK: NaN m^2 >= required "
                   +:+ toFixed1
                         (required_area 4%float 180%float
                            {| min_per_crew := None; fixed_min := Some (lit 3);
                               min_per_crew_per_30days := None |})
                   +:+ " m^2" |}.
Proof.
  apply (nan_area_passes 4 180 28
           [ {| id := 1; name := "Hygiene"; area_m2 := nan |} ] 3 "Hygiene"
           {| min_per_crew := None; fixed_min := Some (lit 3);
              min_per_crew_per_30days := None |}
           {| id := 1; name := "Hygiene"; area_m2 := nan |});
    reflexivity.
Defined.

(** X11: the check of a rule is monotone in the area of its zone: when it
    passes on a zone list, it passes on every zone list in which the rule
    finds a zone of at least that area. *)
Theorem larger_zone_still_passes (crew missionDays floorArea floorArea' : float)
    (z z' : list (Zone float)) (i : nat) (k : string) (v : Rule float)
    (zone zone' : Zone float) (r : CheckResult) :
  rules !! i = Some (k, v) ->
  build_zoneMap z !! k = Some zone ->
  build_zoneMap z' !! k = Some zone' ->
  (zone.(area_m2) <=? zone'.(area_m2))%float = true ->
  evaluateZones crew missionDays floorArea z !! i = Some r ->
  r.(ok) = true ->
  exists r', evaluateZones crew missionDays floorArea' z' !! i = Some r'
             /\ r'.(ok) = true.
Proof.
  intros Hi Hz Hz' Hle Hr Hok.
  rewrite (evaluateZones_rule _ _ _ _ _ _ Hi), (rule_result_found _ _ _ _ _ _ Hz) in Hr.
  rewrite (evaluateZones_rule _ _ _ _ _ _ Hi), (rule_result_found _ _ _ _ _ _ Hz').
  eexists. split; [reflexivity|].
  destruct (area_m2 zone' <? required_area crew missionDays v)%float eqn:Hlt';
    [|reflexivity].
  rewrite (leb_ltb_trans _ _ _ Hle Hlt') in Hr.
  injection Hr as <-. discriminate.
Qed.

(** The Sleep zone of 16 square metres passes for a crew of 4, and so does
    one of 20. *)
Lemma larger_zone_still_passes_sleep :
  exists r', evaluateZones 4%float 180%float 30%float
               [ {| id := 7; name := "Sleep"; area_m2 := 20%float |} ] !! 0%nat
             = Some r'
             /\ r'.(ok) = true.
Proof.
  apply (larger_zone_still_passes 4 180 28 30
           [ {| id := 1; name := "Sleep"; area_m2 := 16%float |} ]
           [ {| id := 7; name := "Sleep"; area_m2 := 20%float |} ]
           0 "Sleep"
           {| min_per_crew := Some (lit 4); fixed_min := None;
              min_per_crew_per_30days := None |}
           {| id := 1; name := "Sleep"; area_m2 := 16%float |}
           {| id := 7; name := "Sleep"; area_m2 := 20%float |}
           {| ok := true; msg := "Sleep OK: 16 m^2 >= required 16.0 m^2" |});
    reflexivity.
Defined.

(** X12: the floor area check is monotone in the floor area: zones that
    fit a floor fit every floor at least as large. *)
Theorem larger_floor_still_fits (crew missionDays floorArea floorArea' : float)
    (z : list (Zone float)) (r : CheckResult) :
  (floorArea <=? floorArea')%float = true ->
  last (evaluateZones crew missionDays floorArea z) = Some r ->
  r.(ok) = true ->
  exists r', last (evaluateZones crew missionDays floorArea' z) = Some r'
             /\ r'.(ok) = true.
Proof.
  intros Hle Hr Hok. rewrite evaluateZones_report, last_snoc in Hr.
  rewrite evaluateZones_report, last_snoc. eexists. split; [reflexivity|].
  injection Hr as <-. revert Hok. unfold aggregate_result. simpl.
  destruct (floorArea' <? total_area z)%float eqn:Hlt'; [|reflexivity].
  now rewrite (leb_ltb_trans _ _ _ Hle Hlt').
Qed.

(** The initial zones, 18 square metres, on floors of 20 and of 25. *)
Lemma larger_floor_still_fits_initial :
  exists r', last (evaluateZones 4%float 180%float 25%float initial_zones) = Some r'
             /\ r'.(ok) = true.
Proof.
  apply (larger_floor_still_fits 4 180 20 25 initial_zones
           {| ok := true; msg := "Total zones 18.0 m^2 within floor area 20.0 m^2" |});
    reflexivity.
Defined.

(** * The canvas *)

(** X13: the share [pct] of a zone on the canvas is at least 0.02, the
    floor that [Math.max(0.02, ...)] sets, unless it is NaN; and the
    divisor [Math.max(1, total)] is at least 1 unless it is NaN, so no
    share is a division by zero. *)
Theorem canvas_share_floor (zones : list (Zone float)) (z : Zone float) :
  (is_nan (canvas_pct zones z) = true
   \/ (0.02 <=? canvas_pct zones z)%float = true)
  /\ (is_nan (Math_max (lit 1) (canvas_total zones)) = true
      \/ (1 <=? Math_max (lit 1) (canvas_total zones))%float = true).
Proof.
  assert (Hmax : forall a b : float, is_nan a = false ->
            is_nan (Float64.Math_max a b) = true
            \/ (a <=? Float64.Math_max a b)%float = true).
  { intros a b Ha. destruct (is_nan b) eqn:Hb.
    - left. unfold Float64.Math_max. rewrite Hb, orb_true_r. reflexivity.
    - right. now apply Math_max_ge_left. }
  split; [apply (Hmax 0.02%float) | apply (Hmax 1%float)]; reflexivity.
Qed.

(** * The second component *)

Section ChartFacts.
Context {N : Type} `{JsNum N}.

Lemma omap_lookup_seq {A : Type} (l0 l : list A) :
  omap (fun a => (l0 ++ l) !! a) (seq (length l0) (length l)) = l.
Proof.
  revert l0. induction l as [|x l IH]; intros l0; [reflexivity|].
  simpl. rewrite list_lookup_middle by reflexivity. f_equal.
  specialize (IH (l0 ++ [x])). rewrite <- app_assoc, length_app in IH. simpl in IH.
  rewrite Nat.add_1_r in IH. exact IH.
Qed.

(** In such a state a render reads the objects in the order of making. *)
Lemma view_in_order (st : Chart.State N) :
  array_in_order st -> Chart.view st = st.(Chart.objects).
Proof.
  intros [Hz _]. unfold Chart.view. rewrite Hz.
  apply (omap_lookup_seq [] st.(Chart.objects)).
Qed.

Lemma array_in_order_write (st st' : Chart.State N) i f :
  (forall o, (f o).(Chart.id) = o.(Chart.id)) ->
  array_in_order st -> Chart.write_zone st i f = Some st' -> array_in_order st'.
Proof.
  intros Hf [Hz Hid]. unfold Chart.write_zone.
  destruct (Chart.zones st !! i) as [a|]; [|discriminate].
  destruct (Chart.objects st !! a) as [o|] eqn:Ho; [|discriminate].
  intros [= <-]. split; simpl.
  - now rewrite length_insert.
  - intros a' o' Ha'. destruct (decide (a = a')) as [<-|Hne].
    + rewrite list_lookup_insert_eq in Ha' by (eapply lookup_lt_Some; eauto).
      injection Ha' as <-. rewrite Hf. now apply Hid.
    + rewrite list_lookup_insert_ne in Ha' by exact Hne. now apply Hid.
Qed.

Lemma array_in_order_handle (st st' : Chart.State N) e :
  array_in_order st -> Chart.handle st e = Some st' -> array_in_order st'.
Proof.
  intros Hst He. destruct e; simpl in He;
    try (injection He as <-; exact Hst);
    try (eapply array_in_order_write; [|exact Hst|exact He]; reflexivity).
  destruct Hst as [Hz Hid]. injection He as <-. split; simpl.
  - rewrite length_app, Hz. simpl. now rewrite Nat.add_1_r, seq_S.
  - intros a o Ha. apply lookup_app_Some in Ha as [Ha|[Hlen Ha]]; [now apply Hid|].
    destruct (a - length (Chart.objects st))%nat eqn:Hsub; [|destruct n; discriminate].
    injection Ha as <-. simpl. rewrite Hz, length_seq. lia.
Qed.

Lemma array_in_order_run events : forall st st' : Chart.State N,
  array_in_order st -> Chart.run st events = Some st' -> array_in_order st'.
Proof.
  induction events as [|e events IH]; intros st st' Hst Hrun; simpl in Hrun.
  - now injection Hrun as <-.
  - destruct (Chart.handle st e) as [st1|] eqn:He; [|discriminate].
    eapply IH; [|exact Hrun]. eapply array_in_order_handle; eauto.
Qed.

Lemma array_in_order_initial : array_in_order (Chart.initial (N := N)).
Proof. split; [reflexivity|]. intros a o Ha. destruct a; discriminate. Qed.

Lemma ids_in_order (l : list (Chart.Zone N)) :
  (forall a o, l !! a = Some o -> o.(Chart.id) = Z.of_nat a + 1) ->
  map Chart.id l = map (fun a => Z.of_nat a + 1) (seq 0 (length l)).
Proof.
  intros Hid. apply list_eq. intros a. rewrite !list_lookup_fmap.
  destruct (l !! a) as [o|] eqn:Ha; simpl.
  - rewrite lookup_seq_lt by (eapply lookup_lt_Some; eauto). simpl.
    f_equal. now apply Hid.
  - rewrite lookup_seq_ge; [reflexivity|]. now apply lookup_ge_None.
Qed.

(** X15: in every state that the handlers reach, the zones have the ids
    1, 2, ..., n in the order of the list, whatever was added or typed:
    the keys of the list items are distinct. *)
Theorem zone_ids_count_up (events : list (Chart.Event N)) (st : Chart.State N) :
  Chart.run Chart.initial events = Some st ->
  map Chart.id (Chart.view st)
  = map (fun a => Z.of_nat a + 1) (seq 0 (length (Chart.view st)))
  /\ NoDup (map Chart.id (Chart.view st)).
Proof.
  intros Hrun.
  pose proof (array_in_order_run events _ _ array_in_order_initial Hrun) as Hst.
  rewrite (view_in_order st Hst).
  assert (Hids := ids_in_order _ (proj2 Hst)). split; [exact Hids|].
  rewrite Hids. apply NoDup_fmap_2; [|apply NoDup_seq].
  intros a b Hab. lia.
Qed.

(** X16: typing into the name or the area of the item at index [i] writes
    that field of that zone and nothing else: every other zone, and the
    id of the zone itself, stay as they are.  (The write goes into the
    object in place; it reaches one item only because the array holds
    each object once.) *)
Theorem zone_input_writes_one_item (events : list (Chart.Event N))
    (st : Chart.State N) (i : nat) (o : Chart.Zone N) (s : string) (x : N) :
  Chart.run Chart.initial events = Some st ->
  Chart.view st !! i = Some o ->
  (exists st', Chart.handle st (Chart.InputName i s) = Some st'
               /\ Chart.view st'
                  = <[ i := {| Chart.id := o.(Chart.id); Chart.name := s;
                               Chart.area := o.(Chart.area) |} ]> (Chart.view st))
  /\ (exists st', Chart.handle st (Chart.InputArea i x) = Some st'
                  /\ Chart.view st'
                     = <[ i := {| Chart.id := o.(Chart.id);
                                  Chart.name := o.(Chart.name);
                                  Chart.area := x |} ]> (Chart.view st)).
Proof.
  intros Hrun Hi.
  pose proof (array_in_order_run events _ _ array_in_order_initial Hrun) as Hst.
  rewrite (view_in_order st Hst) in *.
  assert (Hzi : Chart.zones st !! i = Some i).
  { destruct Hst as [-> _]. apply lookup_seq_lt. eapply lookup_lt_Some; eauto. }
  assert (Hw : forall f, (forall o', (f o').(Chart.id) = o'.(Chart.id)) ->
            exists st', Chart.write_zone st i f = Some st'
                        /\ Chart.view st' = <[ i := f o ]> (Chart.objects st)).
  { intros f Hf. unfold Chart.write_zone. rewrite Hzi, Hi.
    eexists. split; [reflexivity|].
    rewrite view_in_order; [reflexivity|].
    eapply (array_in_order_write st _ i f Hf Hst).
    unfold Chart.write_zone. now rewrite Hzi, Hi. }
  split; simpl; apply Hw; reflexivity.
Qed.

End ChartFacts.

(** Three clicks on Add Zone. *)
Lemma zone_ids_count_up_three :
  map Chart.id
    [ {| Chart.id := 1; Chart.name := "Zone 1"; Chart.area := lit (N := float) 5 |};
      {| Chart.id := 2; Chart.name := "Zone 2"; Chart.area := lit 5 |};
      {| Chart.id := 3; Chart.name := "Zone 3"; Chart.area := lit 5 |} ]
  = map (fun a => Z.of_nat a + 1) (seq 0 3)
  /\ NoDup [1; 2; 3].
Proof.
  apply (zone_ids_count_up (N := float)
           [Chart.ClickAddZone; Chart.ClickAddZone; Chart.ClickAddZone]
           {| Chart.shape := "cylinder"; Chart.width := lit 6; Chart.height := lit 8;
              Chart.crew := lit 4; Chart.days := lit 180;
              Chart.objects :=
                [ {| Chart.id := 1; Chart.name := "Zone 1"; Chart.area := lit 5 |};
                  {| Chart.id := 2; Chart.name := "Zone 2"; Chart.area := lit 5 |};
                  {| Chart.id := 3; Chart.name := "Zone 3"; Chart.area := lit 5 |} ];
              Chart.zones := [0; 1; 2]%nat |}).
  reflexivity.
Defined.

(** The second of two zones renamed, and resized. *)
Lemma zone_input_writes_second :
  (exists st', Chart.handle two_zones_added (Chart.InputName 1 "Galley") = Some st'
               /\ Chart.view st'
                  = <[ 1%nat := {| Chart.id := 2; Chart.name := "Galley";
                                   Chart.area := lit 5 |} ]>
                      (Chart.view two_zones_added))
  /\ (exists st', Chart.handle two_zones_added (Chart.InputArea 1 7.5%float) = Some st'
                  /\ Chart.view st'
                     = <[ 1%nat := {| Chart.id := 2; Chart.name := "Zone 2";
                                      Chart.area := 7.5%float |} ]>
                         (Chart.view two_zones_added)).
Proof.
  apply (zone_input_writes_one_item (N := float)
           [Chart.ClickAddZone; Chart.ClickAddZone] two_zones_added 1
           {| Chart.id := 2; Chart.name := "Zone 2"; Chart.area := lit 5 |}
           "Galley" 7.5%float);
    reflexivity.
Defined.

(** X17: with a crew of 0 the text after "Per Crew Area:" is no number:
    "Infinity" when the total area is positive, "NaN" when there is no
    zone; the division is not guarded. *)
Theorem per_crew_area_without_crew (st : Chart.State float) :
  st.(Chart.crew) = 0%float ->
  ((0 <? Chart.totalArea st)%float = true -> Chart.perCrewArea st = "Infinity")
  /\ (Chart.view st = [] -> Chart.perCrewArea st = "NaN").
Proof.
  intros Hcrew. unfold Chart.perCrewArea. rewrite Hcrew. split.
  - intros Hpos. unfold Number_toFixed.
    rewrite FloatAxioms.div_spec. rewrite FloatAxioms.ltb_spec in Hpos.
    change (Prim2SF 0) with (S754_zero false) in *.
    destruct (Prim2SF (Chart.totalArea st)) as [[]|[]| |[] m e];
      try discriminate; reflexivity.
  - intros Hview. unfold Chart.totalArea. rewrite Hview. reflexivity.
Qed.

(** One zone, then 0 typed into the crew size. *)
Lemma per_crew_area_one_zone :
  ((0 <? Chart.totalArea
           {| Chart.shape := "cylinder"; Chart.width := lit 6; Chart.height := lit 8;
              Chart.crew := 0%float; Chart.days := lit 180;
              Chart.objects :=
                [ {| Chart.id := 1; Chart.name := "Zone 1"; Chart.area := lit 5 |} ];
              Chart.zones := [0%nat] |})%float = true ->
   Chart.perCrewArea
     {| Chart.shape := "cylinder"; Chart.width := lit 6; Chart.height := lit 8;
        Chart.crew := 0%float; Chart.days := lit 180;
        Chart.objects :=
          [ {| Chart.id := 1; Chart.name := "Zone 1"; Chart.area := lit 5 |} ];
        Chart.zones := [0%nat] |} = "Infinity")
  /\ (Chart.view
        {| Chart.shape := "cylinder"; Chart.width := lit 6; Chart.height := lit 8;
           Chart.crew := 0%float; Chart.days := lit 180;
           Chart.objects :=
             [ {| Chart.id := 1; Chart.name := "Zone 1"; Chart.area := lit 5 |} ];
           Chart.zones := [0%nat] |} = [] ->
      Chart.perCrewArea
        {| Chart.shape := "cylinder"; Chart.width := lit 6; Chart.height := lit 8;
           Chart.crew := 0%float; Chart.days := lit 180;
           Chart.objects :=
             [ {| Chart.id := 1; Chart.name := "Zone 1"; Chart.area := lit 5 |} ];
           Chart.zones := [0%nat] |} = "NaN").
Proof.
  apply (per_crew_area_without_crew
           {| Chart.shape := "cylinder"; Chart.width := lit 6; Chart.height := lit 8;
              Chart.crew := 0%float; Chart.days := lit 180;
              Chart.objects :=
                [ {| Chart.id := 1; Chart.name := "Zone 1"; Chart.area := lit 5 |} ];
              Chart.zones := [0%nat] |}).
  reflexivity.
Defined.

(** The two texts, after one click on Add Zone and with no zone. *)
Example per_crew_area_texts :
  option_map Chart.perCrewArea
    (Chart.run Chart.initial [Chart.ClickAddZone; Chart.InputCrew 0%float])
  = Some "Infinity"
  /\ option_map Chart.perCrewArea
       (Chart.run Chart.initial [Chart.InputCrew 0%float])
     = Some "NaN"
  /\ option_map Chart.perCrewArea
       (Chart.run Chart.initial
          [Chart.ClickAddZone; Chart.ClickAddZone; Chart.InputArea 1 7.5%float])
     = Some "3.13".
Proof. repeat split; vm_compute; reflexivity. Qed.

(** [toFixed(1)] by the general definition, on the values of
    [toFixed1_values]. *)
Example toFixed_one_digit :
  map (Number_toFixed 1)
    [ 16; 0.05; 0.25; 1.45; -0.01; 0.04; 28.274333882308138; 1e21; nan;
      neg_zero ]%float
  = map Float64.Number_toFixed1
      [ 16; 0.05; 0.25; 1.45; -0.01; 0.04; 28.274333882308138; 1e21; nan;
        neg_zero ]%float
  /\ map (Number_toFixed 2) [1.005; 2.5; 0; 123.456; 0.005; 0.125; 4.375]%float
     = ["1.00"; "2.50"; "0.00"; "123.46"; "0.01"; "0.13"; "4.38"].
Proof. split; vm_compute; reflexivity. Qed.

(** * The two totals *)

Section Totals.
Local Open Scope float_scope.

Lemma add_nan (a b : float) :
  is_nan a = true \/ is_nan b = true -> is_nan (a + b) = true.
Proof.
  rewrite !is_nan_spec, FloatAxioms.add_spec.
  intros [-> | ->]; [reflexivity|]. now destruct (Prim2SF a).
Qed.

Lemma div_nan (a b : float) : is_nan b = true -> is_nan (a / b) = true.
Proof.
  rewrite !is_nan_spec, FloatAxioms.div_spec. intros ->. now destruct (Prim2SF a).
Qed.

Lemma fold_add_nan (zones : list (Zone float)) (a : float) :
  is_nan a = true \/ Exists (fun x => is_nan x.(area_m2) = true) zones ->
  is_nan (fold_left (fun a b => a + b.(area_m2)) zones a) = true.
Proof.
  revert a. induction zones as [|y zones IH]; intros a [Ha|Hex]; simpl.
  - exact Ha.
  - inversion Hex.
  - apply IH. left. apply add_nan. now left.
  - apply IH. apply Exists_cons in Hex as [Hy|Hex]; [|now right].
    left. apply add_nan. now right.
Qed.

(** X18: one zone whose area is NaN makes the share of every zone on the
    canvas NaN: the total of the canvas adds the areas as they are, where
    the total of the floor area check reads [area || 0]. *)
Theorem canvas_nan_spreads (zones : list (Zone float)) (z : Zone float) :
  Exists (fun x => is_nan x.(area_m2) = true) zones ->
  is_nan (canvas_total zones) = true /\ is_nan (canvas_pct zones z) = true.
Proof.
  intros Hex.
  assert (Htotal : is_nan (canvas_total zones) = true).
  { unfold canvas_total. apply fold_add_nan. now right. }
  split; [exact Htotal|]. unfold canvas_pct. simpl.
  assert (Hd : is_nan (Float64.Math_max (Float64.literal 1) (canvas_total zones)) = true).
  { unfold Float64.Math_max. now rewrite Htotal, orb_true_r. }
  unfold Float64.Math_max at 1. now rewrite (div_nan _ _ Hd), orb_true_r.
Qed.

(** A Hygiene zone of area NaN beside a Sleep zone of 6 square metres. *)
Lemma canvas_nan_spreads_hygiene :
  is_nan (canvas_total
            [ {| id := 1; name := "Sleep"; area_m2 := 6 |};
              {| id := 2; name := "Hygiene"; area_m2 := nan |} ]) = true
  /\ is_nan (canvas_pct
               [ {| id := 1; name := "Sleep"; area_m2 := 6 |};
                 {| id := 2; name := "Hygiene"; area_m2 := nan |} ]
               {| id := 1; name := "Sleep"; area_m2 := 6 |}) = true.
Proof.
  apply (canvas_nan_spreads
           [ {| id := 1; name := "Sleep"; area_m2 := 6 |};
             {| id := 2; name := "Hygiene"; area_m2 := nan |} ]
           {| id := 1; name := "Sleep"; area_m2 := 6 |}).
  apply Exists_cons. right. apply Exists_cons. left. reflexivity.
Defined.

(** X19: when every area is a real number [>= 0], the total of the canvas
    and the total of the floor area check are the same number. *)
Theorem canvas_total_is_engine_total (zones : list (Zone float)) :
  Forall (fun x => Float64.is_nonneg_real x.(area_m2) = true) zones ->
  canvas_total zones = total_area zones.
Proof. intros Hall. now rewrite (total_area_sum zones Hall). Qed.

Lemma canvas_total_is_engine_total_initial :
  canvas_total (initial_zones (N := float)) = total_area initial_zones.
Proof.
  apply (canvas_total_is_engine_total initial_zones). repeat constructor.
Defined.

End Totals.
